(** * Offline sample preparation: [rllib/offline/offline_data.py]

    A shallow embedding of [OfflineData] (the dataset access and sampling
    facade) and [OfflinePreLearner] (the per-shard transform unit), with the
    properties of the specification stated over it.

    Python objects are modelled as records, dictionaries as insertion-ordered
    association lists, exceptions as an error type, and the effects the code
    performs (the [random] module, remote calls, attribute assignment) by
    explicit state passing.  Everything the module imports but does not define
    is collected in the record [Collaborators]. *)

From Stdlib Require Import List String ZArith Bool Arith Lia Permutation.
Import ListNotations.
Local Open Scope string_scope.
Local Open Scope list_scope.
Set Warnings "-register-all".

(** ** Exceptions and fallible computations *)

(** The Python exceptions the modelled code can raise.  [ExternalError] stands
    for whatever an external collaborator (reader, remote call, connector)
    raises. *)
Inductive exn : Type :=
| KeyError (key : string)
| IndexError
| TypeError
| ValueError
| AttributeError (attr : string)
| UnboundLocalError (name : string)
| ExternalError (msg : string).

Inductive result (A : Type) : Type :=
| Ok (a : A)
| Err (e : exn).
Arguments Ok {A} a.
Arguments Err {A} e.

Definition rbind {A B : Type} (r : result A) (k : A -> result B) : result B :=
  match r with
  | Ok a => k a
  | Err e => Err e
  end.

Notation "x <- e ;; k" := (rbind e (fun x => k))
  (at level 61, e at next level, right associativity).

(** A computation over a mutable state [S] that may raise; the state reached
    when the exception is raised is kept. *)
Definition M (S A : Type) : Type := S -> result A * S.

Definition mret {S A : Type} (a : A) : M S A := fun s => (Ok a, s).

Definition mbind {S A B : Type} (m : M S A) (k : A -> M S B) : M S B :=
  fun s => match m s with
           | (Ok a, s') => k a s'
           | (Err e, s') => (Err e, s')
           end.

Definition mraise {S A : Type} (e : exn) : M S A := fun s => (Err e, s).

Definition mlift {S A : Type} (r : result A) : M S A := fun s => (r, s).

Definition mmodify {S : Type} (f : S -> S) : M S unit := fun s => (Ok tt, f s).

Notation "x <~ e ;; k" := (mbind e (fun x => k))
  (at level 61, e at next level, right associativity).

(** ** Python values and containers *)

Inductive Value : Type :=
| VNone
| VBool (b : bool)
| VInt (z : Z)
| VStr (s : string)
| VArr (xs : list Value)
| VDict (items : list (string * Value)).

(** [l[i]] for a non-negative index. *)
Definition index {A : Type} (l : list A) (i : nat) : result A :=
  match nth_error l i with
  | Some a => Ok a
  | None => Err IndexError
  end.

(** [l[z]] for a Python integer: negative indices count from the end. *)
Definition index_Z {A : Type} (l : list A) (z : Z) : result A :=
  let n := Z.of_nat (List.length l) in
  if (0 <=? z)%Z then index l (Z.to_nat z)
  else if (- n <=? z)%Z then index l (Z.to_nat (n + z))
  else Err IndexError.

(** A [dict] with string keys: an association list in insertion order. *)
Definition dict (A : Type) : Type := list (string * A).

Definition dict_keys {A : Type} (d : dict A) : list string := map fst d.

(** [k in d] *)
Definition dict_contains {A : Type} (k : string) (d : dict A) : bool :=
  existsb (fun kv => String.eqb k (fst kv)) d.

(** [d[k]] *)
Fixpoint dict_get {A : Type} (d : dict A) (k : string) : result A :=
  match d with
  | [] => Err (KeyError k)
  | (k', v) :: rest => if String.eqb k k' then Ok v else dict_get rest k
  end.

(** [d[k] = v]: an existing key keeps its place, a new one goes last. *)
Fixpoint dict_set {A : Type} (d : dict A) (k : string) (v : A) : dict A :=
  match d with
  | [] => [(k, v)]
  | (k', v') :: rest =>
      if String.eqb k k' then (k', v) :: rest else (k', v') :: dict_set rest k v
  end.

(** [del d[k]] *)
Fixpoint dict_del {A : Type} (d : dict A) (k : string) : result (dict A) :=
  match d with
  | [] => Err (KeyError k)
  | (k', v) :: rest =>
      if String.eqb k k' then Ok rest
      else rest' <- dict_del rest k ;; Ok ((k', v) :: rest')
  end.

(** [left | right]: the right operand wins on shared keys. *)
Definition dict_union {A : Type} (left right : dict A) : dict A :=
  fold_left (fun acc kv => dict_set acc (fst kv) (snd kv)) right left.

(** [{k: f(v) for k, v in d.items()}] *)
Definition dict_map_values {A B : Type} (f : A -> B) (d : dict A) : dict B :=
  fold_left (fun acc kv => dict_set acc (fst kv) (f (snd kv))) d [].

(** [k in l] for a list of strings. *)
Definition str_in (k : string) (l : list string) : bool :=
  existsb (String.eqb k) l.

(** ** Names imported from the rest of the library *)

(** [ray.rllib.core.columns.Columns]: the class is not defined in this module,
    so the column names are taken as parameters. *)
Record ColumnNames : Type := {
  EPS_ID : string;
  AGENT_ID : string;
  MODULE_ID : string;
  OBS : string;
  ACTIONS : string;
  REWARDS : string;
  INFOS : string;
  NEXT_OBS : string;
  TERMINATEDS : string;
  TRUNCATEDS : string;
  T : string
}.

Definition ModuleID : Type := string.

(** Modelled from the spec: the Model Snapshot, "an opaque, serializable
    representation of a trainable module's parameters". *)
Definition Snapshot : Type := Value.

(** Modelled from the spec: the module specification, of which only
    [build() -> ModuleInstance] is used. *)
Record MultiAgentRLModuleSpec : Type := {
  spec_module_ids : list ModuleID
}.

(** Modelled from the spec: a module instance, built from a specification and
    given a state by [setState(snapshot)]. *)
Record RLModule : Type := {
  module_built_from : MultiAgentRLModuleSpec;
  module_state_of : option Snapshot
}.

Definition build (spec : MultiAgentRLModuleSpec) : RLModule :=
  {| module_built_from := spec; module_state_of := None |}.

Definition set_state (m : RLModule) (state : option Snapshot) : RLModule :=
  {| module_built_from := module_built_from m; module_state_of := state |}.

(** A raw batch, [Dict[str, np.ndarray]]: column name to the column's rows. *)
Definition RawBatch : Type := dict (list Value).

(** Modelled from the spec: the Episode, here the record of the arguments
    [_map_to_episodes] passes to the [SingleAgentEpisode] constructor (the
    class is defined outside this module). *)
Record SingleAgentEpisode : Type := {
  id_ : Value;
  agent_id : Value;
  observations : list Value;
  infos : list Value;
  actions : list Value;
  rewards : list Value;
  terminated : Value;
  truncated : Value;
  extra_model_outputs : dict (list Value);
  len_lookback_buffer : Z
}.

(** Modelled from the spec: an episode's step count, the "number of
    transitions represented", one less than the observations it holds. *)
Definition env_steps (e : SingleAgentEpisode) : Z :=
  Z.of_nat (List.length (observations e)) - 1.

(** Modelled from the spec: a columnar sub-batch and the Module-Keyed Batch,
    "a mapping from module id to a columnar sub-batch ... plus an aggregate
    environment-step count". *)
Inductive SampleBatch : Type :=
| MkSampleBatch (data : dict (list Value)).

Record MultiAgentBatch : Type := {
  policy_batches : dict SampleBatch;
  count : Z
}.

(** [config.policies_to_train]: nothing, a collection of module ids, or a
    callable on (module id, batch). *)
Inductive PoliciesToTrain : Type :=
| PolicyNone
| PolicyCollection (ids : list ModuleID)
| PolicyCallable (f : ModuleID -> MultiAgentBatch -> bool).

(** The learner connector pipeline, called as
    [connector(rl_module=..., data={}, episodes=..., shared_data={})]. *)
Definition LearnerConnector : Type :=
  RLModule -> list SingleAgentEpisode -> result (dict (dict (list Value))).

(** [config.get("input_")]: a list of paths or a single path. *)
Inductive InputSpec : Type :=
| InputList (paths : list string)
| InputStr (path : string).

(** [self.path]: the list as given, or [Path(...)] of the single path. *)
Inductive InputPath : Type :=
| Paths (paths : list string)
| PathOf (path : string).

(** The fields of [AlgorithmConfig] this module reads. *)
Record AlgorithmConfig : Type := {
  input_ : InputSpec;
  input_read_method : string;
  input_read_method_kwargs : dict Value;
  num_learners : Z;
  is_multi_agent : bool;
  policies_to_train : PoliciesToTrain;
  build_learner_connector : LearnerConnector
}.

(** A learner as this module meets it: a local [Learner] object, whose
    [_module] is read directly, or the [ActorHandle] of a remote one. *)
Inductive LearnerObj : Type :=
| Learner (_module : RLModule)
| ActorHandle (actor : nat).

(** The [learner] argument, [Union[Learner, list[ActorHandle]]]; [NoLearner]
    is Python's [None], which [sample] passes on when no handles were set. *)
Inductive LearnerArg : Type :=
| NoLearner
| Single (l : LearnerObj)
| Listed (ls : list LearnerObj).

(** The keyword arguments [sample] hands to [map_batches] as
    [fn_constructor_kwargs], with the constructor's defaults filled in. *)
Record CtorKwargs : Type := {
  kw_config : AlgorithmConfig;
  kw_learner : LearnerArg;
  kw_locality_hints : option (list string);
  kw_module_spec : option MultiAgentRLModuleSpec;
  kw_module_state : option Snapshot
}.

(** Modelled from the spec: the dataset handle of the external reader, as the
    plan of the operations applied to it ([load], [map]). *)
Inductive Dataset : Type :=
| ReadDataset (method : string) (path : InputPath) (kwargs : dict Value)
| MapBatches (ds : Dataset) (fn_constructor_kwargs : CtorKwargs)
    (concurrency batch_size : Z) (zero_copy_batch : bool).

(** Modelled from the spec: [toIterator(batchSize, prefetchDepth,
    shuffleBufferSize)]. *)
Inductive DataIterator : Type :=
| IterBatches (ds : Dataset)
    (batch_size prefetch_batches local_shuffle_buffer_size : Z).

(** Modelled from the spec: [splitStreaming(n, equal, localityHints)]. *)
Inductive StreamSplit : Type :=
| StreamingSplit (ds : Dataset) (n : Z) (equal : bool)
    (locality_hints : option (list string)).

(** Remote calls and pipeline executions, in the order they are issued. *)
Inductive Event : Type :=
| EvGetState (learner : LearnerObj) (component : string)
| EvMapBatches (fn_constructor_kwargs : CtorKwargs) (concurrency : Z)
| EvNext (it : DataIterator).

(** Everything the module imports and calls but does not define. *)
Record Collaborators : Type := {
  Columns : ColumnNames;
  COMPONENT_RL_MODULE : string;
  (** [ray.rllib.utils.compression.unpack_if_needed] *)
  unpack_if_needed : Value -> Value;
  (** [random.shuffle] and [random.randint] on a generator state *)
  random_shuffle : nat -> list nat -> list nat * nat;
  random_randint : nat -> Z -> Z -> Z * nat;
  (** [getattr(ray.data, method)(path, **kwargs)] *)
  ray_data_read : string -> InputPath -> dict Value -> result Dataset;
  (** [ray.get(handle.get_state.remote(component=...))], which may depend on
      what happened before *)
  remote_get_state : list Event -> nat -> string -> result Snapshot;
  (** [next(iter(iterator))] *)
  iter_next : list Event -> DataIterator -> result (dict (list MultiAgentBatch))
}.

(** ** The schema *)

(** [SCHEMA]: the reserved column names, legacy aliases included. *)
Definition SCHEMA (C : ColumnNames) : list string :=
  [ EPS_ID C; AGENT_ID C; MODULE_ID C; OBS C; ACTIONS C; REWARDS C; INFOS C;
    NEXT_OBS C; TERMINATEDS C; TRUNCATEDS C; T C;
    "agent_index"; "dones"; "unroll_id" ].

(** ** [OfflinePreLearner._map_to_episodes] *)

(** [{k: [v[i]] for k, v in batch.items() if k not in SCHEMA}] *)
Fixpoint extra_outputs (C : ColumnNames) (items : list (string * list Value))
    (i : nat) (acc : dict (list Value)) : result (dict (list Value)) :=
  match items with
  | [] => Ok acc
  | (k, v) :: rest =>
      if str_in k (SCHEMA C) then extra_outputs C rest i acc
      else x <- index v i ;; extra_outputs C rest i (dict_set acc k [x])
  end.

(** The agent id of row [i]: looked up only in multi-agent mode. *)
Definition row_agent_id (C : ColumnNames) (is_multi_agent : bool)
    (batch : RawBatch) (i : nat) : result Value :=
  if is_multi_agent then
    if dict_contains (AGENT_ID C) batch then
      col <- dict_get batch (AGENT_ID C) ;; index col i
    else if dict_contains "agent_index" batch then
      col <- dict_get batch "agent_index" ;; index col i
    else Ok VNone
  else Ok VNone.

(** The [SingleAgentEpisode(...)] call for row [i]; the keyword arguments are
    evaluated in the order they are written. *)
Definition single_agent_episode (X : Collaborators) (batch : RawBatch)
    (i : nat) (obs : Value) (agent : Value) : result SingleAgentEpisode :=
  let C := Columns X in
  eps_col <- dict_get batch (EPS_ID C) ;;
  eps_id <- index eps_col i ;;
  next_col <- dict_get batch (NEXT_OBS C) ;;
  next_obs <- index next_col i ;;
  info <- (if dict_contains (INFOS C) batch
           then col <- dict_get batch (INFOS C) ;; index col i
           else Ok (VDict [])) ;;
  act_col <- dict_get batch (ACTIONS C) ;;
  action <- index act_col i ;;
  rew_col <- dict_get batch (REWARDS C) ;;
  reward <- index rew_col i ;;
  term_col <- dict_get batch
    (if dict_contains (TERMINATEDS C) batch then TERMINATEDS C else "dones") ;;
  term <- index term_col i ;;
  trunc <- (if dict_contains (TRUNCATEDS C) batch
            then col <- dict_get batch (TRUNCATEDS C) ;; index col i
            else Ok (VBool false)) ;;
  extra <- extra_outputs C batch i [] ;;
  Ok {| id_ := eps_id;
        agent_id := agent;
        observations := [unpack_if_needed X obs; unpack_if_needed X next_obs];
        infos := [VDict []; info];
        actions := [action];
        rewards := [reward];
        terminated := term;
        truncated := trunc;
        extra_model_outputs := extra;
        len_lookback_buffer := 0 |}.

(** One pass of the loop body up to the assignment of the local [episode],
    which the multi-agent branch ([pass]) leaves as it was. *)
Definition loop_body (X : Collaborators) (is_multi_agent : bool)
    (batch : RawBatch) (i : nat) (obs : Value)
    (episode : option SingleAgentEpisode) : result (option SingleAgentEpisode) :=
  agent <- row_agent_id (Columns X) is_multi_agent batch i ;;
  if is_multi_agent then Ok episode
  else e <- single_agent_episode X batch i obs agent ;; Ok (Some e).

(** [for i, obs in enumerate(batch["obs"]): ...; episodes.append(episode)].
    [episode] is the function's local variable, unbound until assigned. *)
Fixpoint episodes_loop (X : Collaborators) (is_multi_agent : bool)
    (batch : RawBatch) (rows : list Value) (i : nat)
    (episode : option SingleAgentEpisode) (episodes : list SingleAgentEpisode)
    : result (list SingleAgentEpisode) :=
  match rows with
  | [] => Ok episodes
  | obs :: rest =>
      episode' <- loop_body X is_multi_agent batch i obs episode ;;
      match episode' with
      | None => Err (UnboundLocalError "episode")
      | Some e =>
          episodes_loop X is_multi_agent batch rest (S i) episode' (episodes ++ [e])
      end
  end.

Definition _map_to_episodes (X : Collaborators) (is_multi_agent : bool)
    (batch : RawBatch) : result (dict (list SingleAgentEpisode)) :=
  obs_col <- dict_get batch "obs" ;;
  episodes <- episodes_loop X is_multi_agent batch obs_col 0 None [] ;;
  Ok [("episodes", episodes)].

(** ** [OfflinePreLearner] *)

Record OfflinePreLearner : Type := {
  config : AlgorithmConfig;
  _learner : LearnerObj;
  learner_is_remote : bool;
  _module : RLModule;
  _learner_connector : LearnerConnector;
  _policies_to_train : PoliciesToTrain;
  _is_multi_agent : bool;
  iter_since_last_module_update : Z
}.

(** The process a transform unit is constructed in: the node it runs on
    ([ray.get_runtime_context().get_node_id()]) and the state of [random]. *)
Record Worker : Type := {
  node_id : string;
  rng : nat
}.

Definition get_node_id : M Worker string :=
  fun w => (Ok (node_id w), w).

Definition shuffle (X : Collaborators) (l : list nat) : M Worker (list nat) :=
  fun w => let (l', g) := random_shuffle X (rng w) l in
           (Ok l', {| node_id := node_id w; rng := g |}).

(** [random.randint(a, b)]: an empty range is a [ValueError]. *)
Definition randint (X : Collaborators) (a b : Z) : M Worker Z :=
  fun w => if (b <? a)%Z then (Err ValueError, w)
           else let (r, g) := random_randint X (rng w) a b in
                (Ok r, {| node_id := node_id w; rng := g |}).

(** [len(locality_hints)]: [None] has no length. *)
Definition hints_list (locality_hints : option (list string))
    : result (list string) :=
  match locality_hints with
  | Some hints => Ok hints
  | None => Err TypeError
  end.

(** [learner[i]]: a single handle, like [None], is not subscriptable. *)
Definition learner_getitem (learner : LearnerArg) (i : nat) : result LearnerObj :=
  match learner with
  | Listed ls => index ls i
  | Single _ | NoLearner => Err TypeError
  end.

(** [[l[i] for i in indices]] *)
Fixpoint select {A : Type} (getitem : nat -> result A) (indices : list nat)
    : result (list A) :=
  match indices with
  | [] => Ok []
  | i :: rest => x <- getitem i ;; xs <- select getitem rest ;; Ok (x :: xs)
  end.

(** [for i, hint in enumerate(locality_hints): if hint == node_id:
    self._learner = learner[i]]; [slot] is the attribute [self._learner],
    [None] while it has not been assigned. *)
Fixpoint choose_same_node (node : string) (learner : list LearnerObj)
    (hints : list string) (i : nat) (slot : option LearnerObj)
    : result (option LearnerObj) :=
  match hints with
  | [] => Ok slot
  | hint :: rest =>
      if String.eqb hint node then
        l <- index learner i ;; choose_same_node node learner rest (S i) (Some l)
      else choose_same_node node learner rest (S i) slot
  end.

(** Truth value of a learner object: neither [Learner] nor [ActorHandle]
    defines [__bool__] or [__len__]. *)
Definition truthy (l : LearnerObj) : bool := true.

(** [isinstance(learner, Learner)] *)
Definition is_local_learner (learner : LearnerArg) : option RLModule :=
  match learner with
  | Single (Learner m) => Some m
  | _ => None
  end.

(** The remote branch of [__init__] up to the binding of [self._learner]. *)
Definition bind_remote_learner (X : Collaborators) (learner : LearnerArg)
    (locality_hints : option (list string)) : M Worker LearnerObj :=
  node <~ get_node_id ;;
  hints <~ mlift (hints_list locality_hints) ;;
  indices <~ shuffle X (seq 0 (List.length hints)) ;;
  hints' <~ mlift (select (index hints) indices) ;;
  learner' <~ mlift (select (learner_getitem learner) indices) ;;
  slot <~ mlift (choose_same_node node learner' hints' 0 None) ;;
  match slot with
  | None => mraise (AttributeError "_learner")
  | Some l =>
      if negb (truthy l) then
        r <~ randint X 0 (Z.of_nat (List.length learner') - 1) ;;
        mlift (index_Z learner' r)
      else mret l
  end.

Definition OfflinePreLearner__init__ (X : Collaborators)
    (config : AlgorithmConfig) (learner : LearnerArg)
    (locality_hints : option (list string))
    (module_spec : option MultiAgentRLModuleSpec)
    (module_state : option Snapshot) : M Worker OfflinePreLearner :=
  bound <~ match learner, is_local_learner learner with
           | Single l, Some m => mret (l, false, m)
           | _, _ =>
               l <~ bind_remote_learner X learner locality_hints ;;
               match module_spec with
               | None => mraise (AttributeError "build")
               | Some spec => mret (l, true, set_state (build spec) module_state)
               end
           end ;;
  let '(l, remote, m) := bound in
  mret {| config := config;
          _learner := l;
          learner_is_remote := remote;
          _module := m;
          _learner_connector := build_learner_connector config;
          _policies_to_train := policies_to_train config;
          _is_multi_agent := is_multi_agent config;
          iter_since_last_module_update := 0 |}.

(** [_should_module_be_updated]: [None] and the empty collection are falsy, a
    callable is truthy. *)
Definition policies_falsy (p : PoliciesToTrain) : bool :=
  match p with
  | PolicyNone => true
  | PolicyCollection ids => match ids with [] => true | _ :: _ => false end
  | PolicyCallable _ => false
  end.

Definition _should_module_be_updated (self : OfflinePreLearner)
    (module_id : ModuleID) (multi_agent_batch : MultiAgentBatch) : bool :=
  if policies_falsy (_policies_to_train self) then true
  else match _policies_to_train self with
       | PolicyCallable f => f module_id multi_agent_batch
       | PolicyCollection ids => str_in module_id ids
       | PolicyNone => true
       end.

(** [del batch.policy_batches[module_id]] on the batch object. *)
Definition del_policy_batch (batch : MultiAgentBatch) (module_id : ModuleID)
    : result MultiAgentBatch :=
  pb <- dict_del (policy_batches batch) module_id ;;
  Ok {| policy_batches := pb; count := count batch |}.

(** [for module_id in list(batch.policy_batches.keys()): ...]: the keys are
    copied before the loop, the batch handed to the check is the object the
    loop deletes from. *)
Fixpoint remove_untrained (self : OfflinePreLearner) (keys : list ModuleID)
    (batch : MultiAgentBatch) : result MultiAgentBatch :=
  match keys with
  | [] => Ok batch
  | module_id :: rest =>
      if negb (_should_module_be_updated self module_id batch) then
        batch' <- del_policy_batch batch module_id ;;
        remove_untrained self rest batch'
      else remove_untrained self rest batch
  end.

(** [sum(e.env_steps() for e in episodes)] *)
Definition sum_env_steps (episodes : list SingleAgentEpisode) : Z :=
  fold_left (fun acc e => (acc + env_steps e)%Z) episodes 0%Z.

Definition OfflinePreLearner__call__ (X : Collaborators)
    (self : OfflinePreLearner) (batch : RawBatch)
    : result (dict (list MultiAgentBatch)) :=
  episodes <- _map_to_episodes X (_is_multi_agent self) batch ;;
  eps <- dict_get episodes "episodes" ;;
  data <- _learner_connector self (_module self) eps ;;
  eps' <- dict_get episodes "episodes" ;;
  let mab := {| policy_batches := dict_map_values MkSampleBatch data;
                count := sum_env_steps eps' |} in
  mab' <- remove_untrained self (dict_keys (policy_batches mab)) mab ;;
  Ok [("batch", [mab'])].

(** ** [OfflineData] *)

(** The facade object.  [data] is [None] while the attribute has never been
    assigned; the other optional fields hold Python's [None] as [None]. *)
Record OfflineData : Type := {
  od_config : AlgorithmConfig;
  od_is_multi_agent : bool;
  path : InputPath;
  data_read_method : string;
  data_read_method_kwargs : dict Value;
  data : option Dataset;
  batch_iterator : option DataIterator;
  locality_hints : option (list string);
  learner_handles : option (list LearnerObj);
  module_spec : option MultiAgentRLModuleSpec
}.

Definition default_read_method_kwargs (config : AlgorithmConfig) : dict Value :=
  [("override_num_blocks", VInt (Z.max (num_learners config * 2) 2))].

(** [__init__]: an exception raised in the [try] block is logged and
    swallowed; [self.data] is assigned only if the reader returned. *)
Definition OfflineData__init__ (X : Collaborators) (config : AlgorithmConfig)
    : OfflineData :=
  let path := match input_ config with
              | InputList ps => Paths ps
              | InputStr p => PathOf p
              end in
  let method := input_read_method config in
  let kwargs := dict_union (default_read_method_kwargs config)
                           (input_read_method_kwargs config) in
  {| od_config := config;
     od_is_multi_agent := is_multi_agent config;
     path := path;
     data_read_method := method;
     data_read_method_kwargs := kwargs;
     data := match ray_data_read X method path kwargs with
             | Ok ds => Some ds
             | Err _ => None
             end;
     batch_iterator := None;
     locality_hints := None;
     learner_handles := None;
     module_spec := None |}.

(** What a [sample] call runs on: the facade and the events issued so far. *)
Record World : Type := {
  self_ : OfflineData;
  trace : list Event
}.

Definition get_self : M World OfflineData :=
  fun w => (Ok (self_ w), w).

(** [self.data]: an [AttributeError] when the attribute was never assigned. *)
Definition attr_data : M World Dataset :=
  fun w => match data (self_ w) with
           | Some ds => (Ok ds, w)
           | None => (Err (AttributeError "data"), w)
           end.

(** [self.learner_handles[0]] *)
Definition learner_handle_0 : M World LearnerObj :=
  fun w => match learner_handles (self_ w) with
           | None => (Err TypeError, w)
           | Some ls => (index ls 0, w)
           end.

Definition set_batch_iterator (it : DataIterator) : M World unit :=
  mmodify (fun w =>
    {| self_ := {| od_config := od_config (self_ w);
                   od_is_multi_agent := od_is_multi_agent (self_ w);
                   path := path (self_ w);
                   data_read_method := data_read_method (self_ w);
                   data_read_method_kwargs := data_read_method_kwargs (self_ w);
                   data := data (self_ w);
                   batch_iterator := Some it;
                   locality_hints := locality_hints (self_ w);
                   learner_handles := learner_handles (self_ w);
                   module_spec := module_spec (self_ w) |};
       trace := trace w |}).

Definition emit (ev : Event) : M World unit :=
  mmodify (fun w => {| self_ := self_ w; trace := trace w ++ [ev] |}).

(** [self.data.map_batches(OfflinePreLearner, fn_constructor_kwargs=...,
    concurrency=..., batch_size=..., zero_copy_batch=...)]: the receiver is
    evaluated before the arguments. *)
Definition map_batches (ds : Dataset) (kw : CtorKwargs)
    (concurrency batch_size : Z) (zero_copy_batch : bool) : M World Dataset :=
  _ <~ emit (EvMapBatches kw concurrency) ;;
  mret (MapBatches ds kw concurrency batch_size zero_copy_batch).

(** [ray.get(learner.get_state.remote(component=COMPONENT_RL_MODULE))]: a
    local [Learner]'s method has no [remote]. *)
Definition get_state_remote (X : Collaborators) (learner : LearnerObj)
    : M World Snapshot :=
  match learner with
  | Learner _ => mraise (AttributeError "remote")
  | ActorHandle a =>
      fun w =>
        (remote_get_state X (trace w) a (COMPONENT_RL_MODULE X),
         {| self_ := self_ w;
            trace := trace w ++ [EvGetState learner (COMPONENT_RL_MODULE X)] |})
  end.

(** [next(iter(self.batch_iterator))] *)
Definition next_of_iterator (X : Collaborators) (it : option DataIterator)
    : M World (dict (list MultiAgentBatch)) :=
  match it with
  | None => mraise TypeError
  | Some i =>
      fun w => (iter_next X (trace w) i,
                {| self_ := self_ w; trace := trace w ++ [EvNext i] |})
  end.

(** What [sample] returns in its three modes. *)
Inductive SampleResult : Type :=
| OneBatch (b : MultiAgentBatch)
| OneIterator (it : option DataIterator)
| Shards (split : StreamSplit).

(** Truth value of [self.batch_iterator]: [None] is falsy, an iterator object
    truthy. *)
Definition iterator_truthy (it : option DataIterator) : bool :=
  match it with
  | Some _ => true
  | None => false
  end.

Definition sample (X : Collaborators) (num_samples : Z)
    (return_iterator : bool) (num_shards : Z) : M World SampleResult :=
  self <~ get_self ;;
  _ <~ (if negb return_iterator
           || (return_iterator && (num_shards <=? 1)%Z
               && negb (iterator_truthy (batch_iterator self)))
        then
          ds <~ attr_data ;;
          learner0 <~ learner_handle_0 ;;
          mapped <~ map_batches ds
            {| kw_config := od_config self;
               kw_learner := Single learner0;
               kw_locality_hints := None;
               kw_module_spec := None;
               kw_module_state := None |}
            2 num_samples false ;;
          set_batch_iterator
            (IterBatches mapped num_samples 2 (num_samples * 10))
        else mret tt) ;;
  self <~ get_self ;;
  if return_iterator then
    if (1 <? num_shards)%Z then
      learner0 <~ learner_handle_0 ;;
      module_state <~ get_state_remote X learner0 ;;
      ds <~ attr_data ;;
      mapped <~ map_batches ds
        {| kw_config := od_config self;
           kw_learner := match learner_handles self with
                         | Some handles => Listed handles
                         | None => NoLearner
                         end;
           kw_locality_hints := locality_hints self;
           kw_module_spec := module_spec self;
           kw_module_state := Some module_state |}
        num_shards num_samples true ;;
      mret (Shards (StreamingSplit mapped num_shards false (locality_hints self)))
    else mret (OneIterator (batch_iterator self))
  else
    out <~ next_of_iterator X (batch_iterator self) ;;
    batches <~ mlift (dict_get out "batch") ;;
    b <~ mlift (index batches 0) ;;
    mret (OneBatch b).

(** Modelled from the spec: the transform units the runtime constructs for a
    dataset plan, "[num_shards] transform-unit instances (concurrency =
    [num_shards])" per map stage, each from the stage's constructor
    arguments. *)
Fixpoint transform_units (ds : Dataset) : list CtorKwargs :=
  match ds with
  | ReadDataset _ _ _ => []
  | MapBatches ds' kw concurrency _ _ =>
      transform_units ds' ++ repeat kw (Z.to_nat concurrency)
  end.

(** ** A concrete environment

    The column names RLlib uses, and simple deterministic stand-ins for the
    external collaborators, for running the model on concrete inputs. *)

Definition rllib_columns : ColumnNames :=
  {| EPS_ID := "eps_id"; AGENT_ID := "agent_id"; MODULE_ID := "module_id";
     OBS := "obs"; ACTIONS := "actions"; REWARDS := "rewards";
     INFOS := "infos"; NEXT_OBS := "new_obs"; TERMINATEDS := "terminateds";
     TRUNCATEDS := "truncateds"; T := "t" |}.

(** The reader fails on an empty path; a remote learner's state is the number
    of events issued before the fetch; no cluster runs the iterators. *)
Definition local_collaborators : Collaborators :=
  {| Columns := rllib_columns;
     COMPONENT_RL_MODULE := "rl_module";
     unpack_if_needed := fun v => v;
     random_shuffle := fun g l => (rev l, S g);
     random_randint := fun g a b => (a, S g);
     ray_data_read := fun method p kwargs =>
       match p with
       | PathOf "" => Err (ExternalError "no such file")
       | _ => Ok (ReadDataset method p kwargs)
       end;
     remote_get_state := fun tr a component =>
       Ok (VInt (Z.of_nat (List.length tr)));
     iter_next := fun tr it => Err (ExternalError "no cluster") |}.

(** The connector that puts every episode id under one module. *)
Definition id_connector (module_ids : list ModuleID) : LearnerConnector :=
  fun m episodes =>
    Ok (map (fun mid => (mid, [("eps_id", map id_ episodes)])) module_ids).

Definition config_of (input : string) (policy : PoliciesToTrain)
    (module_ids : list ModuleID) : AlgorithmConfig :=
  {| input_ := InputStr input;
     input_read_method := "read_json";
     input_read_method_kwargs := [];
     num_learners := 0;
     is_multi_agent := false;
     policies_to_train := policy;
     build_learner_connector := id_connector module_ids |}.

(** A three-row single-agent batch with every reserved column. *)
Definition full_batch : RawBatch :=
  let ints := map VInt in
  [ ("eps_id", ints [7; 7; 8]%Z); ("agent_id", ints [0; 0; 0]%Z);
    ("module_id", ints [0; 0; 0]%Z); ("obs", ints [10; 11; 12]%Z);
    ("actions", ints [1; 0; 1]%Z); ("rewards", ints [1; 1; 0]%Z);
    ("infos", [VDict []; VDict []; VDict []]);
    ("new_obs", ints [11; 12; 13]%Z);
    ("terminateds", map VBool [false; true; false]);
    ("truncateds", map VBool [false; false; true]);
    ("t", ints [0; 1; 0]%Z); ("agent_index", ints [0; 0; 0]%Z);
    ("dones", map VBool [false; true; false]);
    ("unroll_id", ints [0; 0; 1]%Z); ("action_logp", ints [5; 6; 7]%Z) ].

(** ** Vocabulary of the statements *)

(** The number of rows of a batch: the length of its [obs] column. *)
Definition num_rows (batch : RawBatch) : nat :=
  match dict_get batch "obs" with
  | Ok col => List.length col
  | Err _ => 0
  end.

(** Every column has as many entries as the batch has rows (the raw batch is
    "a mapping from column name to an ordered, equal-length sequence"). *)
Definition rectangular (batch : RawBatch) : bool :=
  forallb (fun kv => Nat.eqb (List.length (snd kv)) (num_rows batch)) batch.

(** Every name of [SCHEMA] is a column of the batch. *)
Definition all_reserved_present (C : ColumnNames) (batch : RawBatch) : bool :=
  forallb (fun k => dict_contains k batch) (SCHEMA C).

(** The columns [_map_to_episodes] reads unconditionally. *)
Definition required_columns (C : ColumnNames) : list string :=
  ["obs"; EPS_ID C; NEXT_OBS C; ACTIONS C; REWARDS C].

(** The first required column, in the order [_map_to_episodes] looks them up,
    that the batch does not have. *)
Definition first_missing_required (C : ColumnNames) (batch : RawBatch)
    : option string :=
  find (fun c => negb (dict_contains c batch)) (required_columns C).

(** The value of column [k] at row [i], if there is one. *)
Definition cell (batch : RawBatch) (k : string) (i : nat) : option Value :=
  match dict_get batch k with
  | Ok col => nth_error col i
  | Err _ => None
  end.

(** The module ids the specification keeps: those of the batch whose inclusion
    check, made on the full batch, holds. *)
Definition modules_kept_by_spec (self : OfflinePreLearner)
    (full_batch : MultiAgentBatch) : list ModuleID :=
  filter (fun mid => _should_module_be_updated self mid full_batch)
         (dict_keys (policy_batches full_batch)).

(** A transform unit around a local learner, with a given inclusion policy. *)
Definition local_prelearner (policy : PoliciesToTrain)
    (module_ids : list ModuleID) : OfflinePreLearner :=
  let cfg := config_of "data" policy module_ids in
  let m := build {| spec_module_ids := module_ids |} in
  {| config := cfg;
     _learner := Learner m;
     learner_is_remote := false;
     _module := m;
     _learner_connector := build_learner_connector cfg;
     _policies_to_train := policy;
     _is_multi_agent := false;
     iter_since_last_module_update := 0 |}.

(** A batch with the modules [A] and [B]. *)
Definition batch_AB : MultiAgentBatch :=
  {| policy_batches := [("A", MkSampleBatch [("obs", [VInt 1])]);
                        ("B", MkSampleBatch [("obs", [VInt 2])])];
     count := 2 |}.

(** A predicate that looks at the batch: train every module but [A], and only
    while [A]'s data is in the batch. *)
Definition train_beside_A : PoliciesToTrain :=
  PolicyCallable (fun mid b =>
    negb (String.eqb mid "A") && dict_contains "A" (policy_batches b)).

(** [random.shuffle] rearranges its argument. *)
Definition shuffle_permutes (X : Collaborators) : Prop :=
  forall g l, Permutation (fst (random_shuffle X g l)) l.

(** The owner of the facade assigns the learners after construction
    ([offline_data.learner_handles = ...], and so on). *)
Definition with_learners (self : OfflineData)
    (handles : option (list LearnerObj)) (hints : option (list string))
    (spec : option MultiAgentRLModuleSpec) : OfflineData :=
  {| od_config := od_config self;
     od_is_multi_agent := od_is_multi_agent self;
     path := path self;
     data_read_method := data_read_method self;
     data_read_method_kwargs := data_read_method_kwargs self;
     data := data self;
     batch_iterator := batch_iterator self;
     locality_hints := hints;
     learner_handles := handles;
     module_spec := spec |}.

(** The number of model-snapshot fetches in a trace. *)
Definition fetches (tr : list Event) : nat :=
  List.length (filter (fun ev => match ev with
                                 | EvGetState _ _ => true
                                 | _ => false
                                 end) tr).

(** How a worker of a map stage constructs its transform unit: it calls
    [OfflinePreLearner] with the keyword arguments [sample] handed to
    [map_batches] as [fn_constructor_kwargs]. *)
Definition construct (X : Collaborators) (kw : CtorKwargs)
    : M Worker OfflinePreLearner :=
  OfflinePreLearner__init__ X (kw_config kw) (kw_learner kw)
    (kw_locality_hints kw) (kw_module_spec kw) (kw_module_state kw).

(** The arguments [sample] passes in its single-batch and single-shard modes:
    the first learner, everything else left at the constructor's defaults. *)
Definition single_mode_kwargs (self : OfflineData) (learner0 : LearnerObj)
    : CtorKwargs :=
  {| kw_config := od_config self;
     kw_learner := Single learner0;
     kw_locality_hints := None;
     kw_module_spec := None;
     kw_module_state := None |}.

(** The iterator [sample] builds in those modes for a batch size. *)
Definition single_mode_iterator (self : OfflineData) (ds : Dataset)
    (learner0 : LearnerObj) (num_samples : Z) : DataIterator :=
  IterBatches
    (MapBatches ds (single_mode_kwargs self learner0) 2 num_samples false)
    num_samples 2 (num_samples * 10).

(** The facade with [self.batch_iterator] assigned. *)
Definition with_iterator (self : OfflineData) (it : DataIterator) : OfflineData :=
  {| od_config := od_config self;
     od_is_multi_agent := od_is_multi_agent self;
     path := path self;
     data_read_method := data_read_method self;
     data_read_method_kwargs := data_read_method_kwargs self;
     data := data self;
     batch_iterator := Some it;
     locality_hints := locality_hints self;
     learner_handles := learner_handles self;
     module_spec := module_spec self |}.

(** The columns of a batch that are not reserved. *)
Definition auxiliary_columns (C : ColumnNames) (batch : RawBatch) : RawBatch :=
  filter (fun kv => negb (str_in (fst kv) (SCHEMA C))) batch.

(** Row [i] of a column wrapped as an auxiliary output: the same name, the
    one-element list of the column's value at that row. *)
Definition wraps_row (i : nat) (column : string * list Value)
    (output : string * list Value) : Prop :=
  fst output = fst column /\
  exists x, nth_error (snd column) i = Some x /\ snd output = [x].

(** [module_id: SampleBatch(module_data)] *)
Definition wrap_module_data (kv : string * dict (list Value))
    : string * SampleBatch :=
  (fst kv, MkSampleBatch (snd kv)).

(** A two-row batch with the required columns, the legacy [dones] column and
    one auxiliary column. *)
Definition small_batch : RawBatch :=
  [ ("obs", [VInt 10; VInt 11]); ("eps_id", [VInt 7; VInt 7]);
    ("new_obs", [VInt 11; VInt 12]); ("actions", [VInt 1; VInt 0]);
    ("rewards", [VInt 1; VInt 0]); ("dones", [VBool false; VBool true]);
    ("action_logp", [VInt 5; VInt 6]) ].

(** The episodes of [small_batch]. *)
Definition small_batch_episodes : list SingleAgentEpisode :=
  Eval vm_compute in
    match _map_to_episodes local_collaborators false small_batch with
    | Ok [(_, episodes)] => episodes
    | _ => []
    end.

(** [small_batch] with an episode-id column that is one row short. *)
Definition ragged_batch : RawBatch :=
  [ ("obs", [VInt 10; VInt 11]); ("eps_id", [VInt 7]);
    ("new_obs", [VInt 11; VInt 12]); ("actions", [VInt 1; VInt 0]);
    ("rewards", [VInt 1; VInt 0]); ("dones", [VBool false; VBool true]) ].

(** * Properties *)

(** ** Tactics and basic facts *)

Ltac inv_bind H :=
  repeat match type of H with
  | rbind ?e _ = _ =>
      let E := fresh "E" in destruct e eqn:E; simpl in H; [ | discriminate H ]
  end.

Lemma dict_get_present {A} (d : dict A) k :
  dict_contains k d = true -> exists v, dict_get d k = Ok v /\ In (k, v) d.
Proof.
  induction d as [| [k' v'] d IH]; simpl; intros H; [discriminate |].
  destruct (String.eqb k k') eqn:E.
  - apply String.eqb_eq in E; subst. eauto.
  - simpl in H. destruct (IH H) as (v & Hv & Hin). eauto.
Qed.

Lemma dict_get_absent {A} (d : dict A) k :
  dict_contains k d = false -> dict_get d k = Err (KeyError k).
Proof.
  induction d as [| [k' v'] d IH]; simpl; intros H; [reflexivity |].
  destruct (String.eqb k k'); simpl in H; [discriminate | auto].
Qed.

Lemma dict_get_In {A} (d : dict A) k v :
  dict_get d k = Ok v -> In (k, v) d.
Proof.
  induction d as [| [k' v'] d IH]; simpl; intros H; [discriminate |].
  destruct (String.eqb k k') eqn:E.
  - apply String.eqb_eq in E. inversion H; subst. auto.
  - auto.
Qed.

Lemma index_in_range {A} (l : list A) i :
  i < List.length l -> exists x, index l i = Ok x /\ nth_error l i = Some x.
Proof.
  intros H. unfold index. destruct (nth_error l i) eqn:E; eauto.
  apply nth_error_None in E. lia.
Qed.

Lemma rectangular_In batch k col :
  rectangular batch = true -> In (k, col) batch -> List.length col = num_rows batch.
Proof.
  unfold rectangular. rewrite forallb_forall. intros H Hin.
  apply H in Hin. simpl in Hin. now apply Nat.eqb_eq.
Qed.

Lemma column_cell batch k i :
  rectangular batch = true -> dict_contains k batch = true -> i < num_rows batch ->
  exists col x, dict_get batch k = Ok col /\ index col i = Ok x /\ cell batch k i = Some x.
Proof.
  intros R H Hi. destruct (dict_get_present _ _ H) as (col & Hg & Hin).
  pose proof (rectangular_In _ _ _ R Hin) as L.
  destruct (index_in_range col i) as (x & Hx & Hn); [lia |].
  exists col, x. unfold cell. rewrite Hg. auto.
Qed.

Lemma extra_outputs_total C items i acc :
  (forall k v, In (k, v) items -> i < List.length v) ->
  exists d, extra_outputs C items i acc = Ok d.
Proof.
  revert acc. induction items as [| [k v] items IH]; cbn [extra_outputs];
    intros acc H; [eauto |].
  destruct (str_in k (SCHEMA C)).
  - apply IH. intros k0 v0 Hin. apply (H k0 v0). now right.
  - destruct (index_in_range v i) as (x & Hx & _); [apply (H k v); now left |].
    rewrite Hx. cbn [rbind]. apply IH. intros k0 v0 Hin. apply (H k0 v0). now right.
Qed.

Lemma optional_cell batch k i dflt :
  rectangular batch = true -> i < num_rows batch ->
  exists x, (if dict_contains k batch then col <- dict_get batch k ;; index col i else Ok dflt) = Ok x.
Proof.
  intros R Hi. destruct (dict_contains k batch) eqn:E; [| eauto].
  destruct (column_cell batch k i R E Hi) as (col & x & Hg & Hx & _).
  rewrite Hg. simpl. eauto.
Qed.

Ltac read_cell R Hi Hc :=
  let col := fresh "col" in let x := fresh "x" in
  let Hg := fresh "Hg" in let Hx := fresh "Hx" in
  destruct (column_cell _ _ _ R Hc Hi) as (col & x & Hg & Hx & _);
  rewrite Hg; cbn [rbind]; rewrite Hx; cbn [rbind].

Lemma single_agent_episode_total X batch i obs agent :
  let C := Columns X in
  rectangular batch = true -> i < num_rows batch ->
  dict_contains (EPS_ID C) batch = true ->
  dict_contains (NEXT_OBS C) batch = true ->
  dict_contains (ACTIONS C) batch = true ->
  dict_contains (REWARDS C) batch = true ->
  dict_contains (if dict_contains (TERMINATEDS C) batch then TERMINATEDS C else "dones") batch = true ->
  exists e, single_agent_episode X batch i obs agent = Ok e.
Proof.
  intros C R Hi He Hn Ha Hr Ht. unfold single_agent_episode. fold C.
  read_cell R Hi He. read_cell R Hi Hn.
  destruct (optional_cell batch (INFOS C) i (VDict []) R Hi) as (x3 & ->). cbn [rbind].
  read_cell R Hi Ha. read_cell R Hi Hr. read_cell R Hi Ht.
  destruct (optional_cell batch (TRUNCATEDS C) i (VBool false) R Hi) as (x7 & ->). cbn [rbind].
  destruct (extra_outputs_total C batch i []) as (d & ->).
  - intros k v Hin. rewrite (rectangular_In _ _ _ R Hin). exact Hi.
  - cbn [rbind]. eauto.
Qed.

Lemma single_agent_episode_shape X batch i obs agent e :
  single_agent_episode X batch i obs agent = Ok e ->
  cell batch (EPS_ID (Columns X)) i = Some (id_ e) /\
  agent_id e = agent /\
  (exists next_obs, cell batch (NEXT_OBS (Columns X)) i = Some next_obs /\
     observations e = [unpack_if_needed X obs; unpack_if_needed X next_obs]) /\
  (exists info, infos e = [VDict []; info]) /\
  (exists a, cell batch (ACTIONS (Columns X)) i = Some a /\ actions e = [a]) /\
  (exists r, cell batch (REWARDS (Columns X)) i = Some r /\ rewards e = [r]) /\
  len_lookback_buffer e = 0%Z.
Proof.
  unfold single_agent_episode. intros H. inv_bind H.
  inversion H; subst; clear H. simpl. unfold cell, index in *.
  rewrite E, E1, E4, E6.
  repeat match goal with
  | H : match nth_error ?l ?i with _ => _ end = Ok _ |- _ =>
      destruct (nth_error l i) eqn:?; [inversion H; subst; clear H | discriminate H]
  end.
  repeat split; eauto.
Qed.

Lemma episodes_loop_single X batch rows :
  forall i ep acc,
  (forall j obs, nth_error rows j = Some obs ->
     exists e, single_agent_episode X batch (i + j) obs VNone = Ok e) ->
  exists new,
    episodes_loop X false batch rows i ep acc = Ok (acc ++ new) /\
    List.length new = List.length rows /\
    forall j obs, nth_error rows j = Some obs ->
      exists e, nth_error new j = Some e /\
                single_agent_episode X batch (i + j) obs VNone = Ok e.
Proof.
  induction rows as [| obs rows IH]; intros i ep acc H.
  - exists []. cbn. rewrite app_nil_r. repeat split; auto.
    intros j o Hj. destruct j; discriminate.
  - destruct (H 0 obs eq_refl) as (e & He). rewrite Nat.add_0_r in He.
    cbn [episodes_loop]. unfold loop_body. cbn [row_agent_id rbind].
    rewrite He. cbn [rbind].
    destruct (IH (S i) (Some e) (acc ++ [e])) as (new & Hl & Hn & Hc).
    + intros j o Hj. rewrite Nat.add_succ_l, <- Nat.add_succ_r. apply (H (S j)). exact Hj.
    + exists (e :: new). rewrite Hl, <- app_assoc. cbn. repeat split; auto.
      intros [| j] o Hj; cbn in Hj.
      * inversion Hj; subst. rewrite Nat.add_0_r. exists e. split; [reflexivity | exact He].
      * rewrite <- Nat.add_succ_comm. cbn. apply Hc. exact Hj.
Qed.

Lemma loop_body_shape X flag batch i obs ep e :
  (forall e0, ep = Some e0 -> List.length (observations e0) = 2) ->
  loop_body X flag batch i obs ep = Ok (Some e) ->
  List.length (observations e) = 2.
Proof.
  intros Hep H. unfold loop_body in H. inv_bind H. destruct flag.
  - inversion H; subst. auto.
  - inv_bind H. inversion H; subst.
    apply single_agent_episode_shape in E0.
    destruct E0 as (_ & _ & (n & _ & ->) & _). reflexivity.
Qed.

Lemma episodes_loop_returns X flag batch rows :
  forall i ep acc res,
  (forall e0, ep = Some e0 -> List.length (observations e0) = 2) ->
  episodes_loop X flag batch rows i ep acc = Ok res ->
  exists new, res = acc ++ new /\ List.length new = List.length rows /\
              Forall (fun e => List.length (observations e) = 2) new.
Proof.
  induction rows as [| obs rows IH]; intros i ep acc res Hep H.
  - cbn in H. inversion H; subst. exists []. rewrite app_nil_r. auto.
  - cbn [episodes_loop] in H.
    destruct (loop_body X flag batch i obs ep) as [[e |] |] eqn:E; cbn [rbind] in H;
      try discriminate.
    pose proof (loop_body_shape _ _ _ _ _ _ _ Hep E) as Hs.
    apply IH in H.
    + destruct H as (new & -> & Hn & Hf). exists (e :: new).
      rewrite <- app_assoc. cbn. auto.
    + intros e0 He0. inversion He0; subst. exact Hs.
Qed.

Lemma reserved_present C batch k :
  all_reserved_present C batch = true -> In k (SCHEMA C) -> dict_contains k batch = true.
Proof.
  unfold all_reserved_present. rewrite forallb_forall. auto.
Qed.

Lemma map_to_episodes_unfold X flag batch col :
  dict_get batch "obs" = Ok col ->
  _map_to_episodes X flag batch =
  (episodes <- episodes_loop X flag batch col 0 None [] ;; Ok [("episodes", episodes)]).
Proof.
  intros H. unfold _map_to_episodes. rewrite H. reflexivity.
Qed.

Lemma num_rows_obs batch col :
  dict_get batch "obs" = Ok col -> num_rows batch = List.length col.
Proof.
  intros H. unfold num_rows. now rewrite H.
Qed.

Lemma cell_obs batch col i :
  dict_get batch "obs" = Ok col -> cell batch "obs" i = nth_error col i.
Proof.
  intros H. unfold cell. now rewrite H.
Qed.

(** Every row of a rectangular single-agent batch that has the columns the
    constructor call reads becomes an episode. *)
Lemma map_to_episodes_rows X batch :
  let C := Columns X in
  rectangular batch = true ->
  forallb (fun k => dict_contains k batch) (required_columns C) = true ->
  dict_contains (if dict_contains (TERMINATEDS C) batch then TERMINATEDS C else "dones") batch = true ->
  exists episodes,
    _map_to_episodes X false batch = Ok [("episodes", episodes)] /\
    List.length episodes = num_rows batch /\
    forall i, i < num_rows batch ->
      exists e obs, nth_error episodes i = Some e /\ cell batch "obs" i = Some obs /\
                    single_agent_episode X batch i obs VNone = Ok e.
Proof.
  intros C R Hreq Ht. cbn [required_columns forallb] in Hreq.
  repeat (apply andb_prop in Hreq; destruct Hreq as [? Hreq]).
  destruct (dict_get_present batch "obs") as (col & Hg & _); [assumption |].
  pose proof (num_rows_obs _ _ Hg) as Hn.
  destruct (episodes_loop_single X batch col 0 None []) as (new & Hl & Hlen & Hc).
  - intros j obs Hj. cbn. apply single_agent_episode_total; auto.
    rewrite Hn. apply nth_error_Some. congruence.
  - exists new. rewrite (map_to_episodes_unfold _ _ _ _ Hg), Hl. cbn.
    split; [reflexivity |]. split; [congruence |].
    intros i Hi. rewrite Hn in Hi.
    destruct (nth_error col i) as [obs |] eqn:E; [| apply nth_error_None in E; lia].
    destruct (Hc i obs E) as (e & He & Hs). exists e, obs.
    rewrite (cell_obs _ _ _ Hg). auto.
Qed.

(** C5: for a single-agent raw batch that holds every reserved column, with
    columns of equal length, [_map_to_episodes] returns one episode per row,
    in row order (the [i]-th episode is built from row [i]), and every episode
    has exactly two observations, two infos, one action and one reward. *)
Theorem map_to_episodes_one_episode_per_row X batch :
  all_reserved_present (Columns X) batch = true ->
  dict_contains "obs" batch = true ->
  rectangular batch = true ->
  exists episodes,
    _map_to_episodes X false batch = Ok [("episodes", episodes)] /\
    List.length episodes = num_rows batch /\
    forall i, i < num_rows batch ->
      exists e obs next_obs,
        nth_error episodes i = Some e /\
        cell batch (EPS_ID (Columns X)) i = Some (id_ e) /\
        cell batch "obs" i = Some obs /\
        cell batch (NEXT_OBS (Columns X)) i = Some next_obs /\
        observations e = [unpack_if_needed X obs; unpack_if_needed X next_obs] /\
        cell batch (ACTIONS (Columns X)) i = Some (hd VNone (actions e)) /\
        cell batch (REWARDS (Columns X)) i = Some (hd VNone (rewards e)) /\
        List.length (observations e) = 2 /\ List.length (infos e) = 2 /\
        List.length (actions e) = 1 /\ List.length (rewards e) = 1.
Proof.
  intros Hall Hobs R.
  assert (Hp : forall k, In k (SCHEMA (Columns X)) -> dict_contains k batch = true)
    by (intros k; apply reserved_present; exact Hall).
  destruct (map_to_episodes_rows X batch R) as (episodes & Hm & Hlen & Hrows).
  - cbn [required_columns forallb]. rewrite Hobs.
    rewrite !Hp by (cbn; tauto). reflexivity.
  - rewrite (Hp (TERMINATEDS (Columns X))) by (cbn; tauto). apply Hp. cbn; tauto.
  - exists episodes. repeat split; auto.
    intros i Hi. destruct (Hrows i Hi) as (e & obs & He & Ho & Hs).
    apply single_agent_episode_shape in Hs.
    destruct Hs as (Hid & _ & (next & Hnext & Hobs') & (info & Hinfo) &
                    (a & Ha & Hact) & (r & Hr & Hrew) & _).
    exists e, obs, next. rewrite Hobs', Hinfo, Hact, Hrew. cbn. repeat split; auto.
Qed.

Lemma truncated_default X batch i obs agent e :
  dict_contains (TRUNCATEDS (Columns X)) batch = false ->
  single_agent_episode X batch i obs agent = Ok e ->
  truncated e = VBool false.
Proof.
  intros Ht H. unfold single_agent_episode in H. rewrite Ht in H.
  inv_bind H. inversion H; subst; clear H. cbn. congruence.
Qed.

Lemma first_row_error X batch col obs rest e :
  dict_get batch "obs" = Ok col -> col = obs :: rest ->
  single_agent_episode X batch 0 obs VNone = Err e ->
  _map_to_episodes X false batch = Err e.
Proof.
  intros Hg -> H. rewrite (map_to_episodes_unfold _ _ _ _ Hg).
  cbn [episodes_loop]. unfold loop_body. cbn [row_agent_id rbind].
  rewrite H. reflexivity.
Qed.

(** C10: a single-agent batch with at least one row and the five required
    columns, but with neither the terminated-flag column nor the legacy
    [dones] column, fails on its first row with the [KeyError] of the [dones]
    lookup; a batch that lacks only the truncated-flag column is converted,
    every episode with [truncated = False]. *)
Theorem terminated_flag_required_truncated_optional X batch :
  let C := Columns X in
  rectangular batch = true ->
  0 < num_rows batch ->
  forallb (fun k => dict_contains k batch) (required_columns C) = true ->
  (dict_contains (TERMINATEDS C) batch = false ->
   dict_contains "dones" batch = false ->
   _map_to_episodes X false batch = Err (KeyError "dones")) /\
  (dict_contains (TRUNCATEDS C) batch = false ->
   dict_contains (TERMINATEDS C) batch || dict_contains "dones" batch = true ->
   exists episodes,
     _map_to_episodes X false batch = Ok [("episodes", episodes)] /\
     List.length episodes = num_rows batch /\
     Forall (fun e => truncated e = VBool false) episodes).
Proof.
  intros C R Hrows Hreq. split.
  - intros Ht Hd. cbn [required_columns forallb] in Hreq.
    repeat (apply andb_prop in Hreq; destruct Hreq as [? Hreq]).
    destruct (dict_get_present batch "obs") as (col & Hg & _); [assumption |].
    pose proof (num_rows_obs _ _ Hg) as Hn.
    destruct col as [| obs rest]; [cbn in Hn; lia |].
    apply (first_row_error X batch _ obs rest _ Hg eq_refl).
    unfold single_agent_episode. fold C.
    read_cell R Hrows H0. read_cell R Hrows H1.
    destruct (optional_cell batch (INFOS C) 0 (VDict []) R Hrows) as (x3 & ->).
    cbn [rbind].
    read_cell R Hrows H2. read_cell R Hrows H3.
    rewrite Ht. rewrite (dict_get_absent _ _ Hd). reflexivity.
  - intros Htr Hterm.
    destruct (map_to_episodes_rows X batch R Hreq) as (episodes & Hm & Hlen & Hr).
    + fold C. destruct (dict_contains (TERMINATEDS C) batch) eqn:E; [exact E |].
      exact Hterm.
    + exists episodes. repeat split; auto.
      apply Forall_forall. intros e Hin.
      apply In_nth_error in Hin. destruct Hin as (i & Hi).
      assert (i < num_rows batch) as Hlt
        by (rewrite <- Hlen; apply nth_error_Some; congruence).
      destruct (Hr i Hlt) as (e' & obs & He' & _ & Hs).
      rewrite Hi in He'. inversion He'; subst.
      eapply truncated_default; eauto.
Qed.

(** C3, amended: a batch that misses a required column has a first missing
    one, in the order of the lookups ([obs], episode id, next observation,
    action, reward).  If that is the [obs] column, [_map_to_episodes] raises
    its [KeyError] for any flag and any other columns; otherwise, in
    single-agent mode, on a batch with columns of equal length and at least
    one row, it raises the [KeyError] of that first missing column.  No
    episodes are returned. *)
Theorem missing_required_column_raises_key_error X flag batch c0 :
  let C := Columns X in
  In c0 (required_columns C) ->
  dict_contains c0 batch = false ->
  exists c,
    first_missing_required C batch = Some c /\
    In c (required_columns C) /\ dict_contains c batch = false /\
    (c = "obs" \/ (flag = false /\ 0 < num_rows batch /\ rectangular batch = true) ->
     _map_to_episodes X flag batch = Err (KeyError c)).
Proof.
  intros C Hc0 Hmiss0. subst C.
  destruct (find (fun c => negb (dict_contains c batch))
                 (required_columns (Columns X))) as [c |] eqn:Hfind.
  2:{ exfalso. pose proof (find_none _ _ Hfind c0 Hc0) as H. cbn in H.
      rewrite Hmiss0 in H. discriminate. }
  exists c. split; [exact Hfind |].
  destruct (find_some _ _ Hfind) as (Hin & Hmiss). apply negb_true_iff in Hmiss.
  split; [exact Hin |]. split; [exact Hmiss |]. intros Hcase.
  destruct (dict_contains "obs" batch) eqn:Hobs.
  2:{ assert (c = "obs").
      { unfold required_columns in Hfind. cbn [find] in Hfind. rewrite Hobs in Hfind.
        cbn in Hfind. congruence. }
      subst c. unfold _map_to_episodes.
      rewrite (dict_get_absent _ _ Hobs). reflexivity. }
  destruct Hcase as [-> | (-> & Hrows & R)]; [congruence |].
  destruct (dict_get_present batch "obs" Hobs) as (col & Hg & _).
  pose proof (num_rows_obs _ _ Hg) as Hn.
  destruct col as [| obs rest]; [cbn in Hn; lia |].
  apply (first_row_error X batch _ obs rest _ Hg eq_refl).
  unfold required_columns in Hfind. cbn [find] in Hfind. rewrite Hobs in Hfind.
  cbn [negb] in Hfind.
  unfold single_agent_episode. cbv zeta.
  destruct (dict_contains (EPS_ID (Columns X)) batch) eqn:H1; cbn [negb] in Hfind.
  2:{ inversion Hfind; subst c. rewrite (dict_get_absent _ _ H1). reflexivity. }
  read_cell R Hrows H1.
  destruct (dict_contains (NEXT_OBS (Columns X)) batch) eqn:H2; cbn [negb] in Hfind.
  2:{ inversion Hfind; subst c. rewrite (dict_get_absent _ _ H2). reflexivity. }
  read_cell R Hrows H2.
  destruct (optional_cell batch (INFOS (Columns X)) 0 (VDict []) R Hrows) as (x3 & ->).
  cbn [rbind].
  destruct (dict_contains (ACTIONS (Columns X)) batch) eqn:H3; cbn [negb] in Hfind.
  2:{ inversion Hfind; subst c. rewrite (dict_get_absent _ _ H3). reflexivity. }
  read_cell R Hrows H3.
  destruct (dict_contains (REWARDS (Columns X)) batch) eqn:H4; cbn [negb] in Hfind.
  2:{ inversion Hfind; subst c. rewrite (dict_get_absent _ _ H4). reflexivity. }
  discriminate Hfind.
Qed.

(** C3, counterexample: a batch without rows that lacks the episode-id column
    (and every other required column but [obs]) is converted without any
    failure, to the empty episode list; and in multi-agent mode a batch that
    lacks it fails as the complete batch [full_batch] does, since the columns
    are not read there. *)
Lemma zero_row_batch_signals_nothing :
  let batch : RawBatch := [("obs", [])] in
  let one_row : RawBatch := [("obs", [VInt 1])] in
  In "eps_id" (required_columns rllib_columns) /\
  dict_contains "eps_id" batch = false /\
  _map_to_episodes local_collaborators false batch = Ok [("episodes", [])] /\
  dict_contains "eps_id" one_row = false /\
  _map_to_episodes local_collaborators true one_row =
    Err (UnboundLocalError "episode") /\
  _map_to_episodes local_collaborators true full_batch =
    Err (UnboundLocalError "episode").
Proof.
  cbn. repeat split. auto.
Qed.

(** ** Dictionaries and the module filter *)

Lemma dict_contains_get {A} (d : dict A) k :
  dict_contains k d = match dict_get d k with Ok _ => true | Err _ => false end.
Proof.
  induction d as [| [k' v] d IH]; cbn; [reflexivity |].
  destruct (String.eqb k k'); cbn; auto.
Qed.

Lemma dict_contains_keys {A} (d : dict A) k :
  dict_contains k d = true <-> In k (dict_keys d).
Proof.
  unfold dict_contains, dict_keys. rewrite existsb_exists, in_map_iff. split.
  - intros ((k', v) & Hin & E). apply String.eqb_eq in E. cbn in E. subst.
    exists (k', v). auto.
  - intros ((k', v) & E & Hin). cbn in E. subst. exists (k, v).
    split; [exact Hin | apply String.eqb_refl].
Qed.

Lemma dict_get_missing_key {A} (d : dict A) k :
  ~ In k (dict_keys d) -> dict_get d k = Err (KeyError k).
Proof.
  intros H. apply dict_get_absent. destruct (dict_contains k d) eqn:E; [| reflexivity].
  apply dict_contains_keys in E. contradiction.
Qed.

Lemma dict_del_spec {A} (d : dict A) k :
  NoDup (dict_keys d) -> In k (dict_keys d) ->
  exists d', dict_del d k = Ok d' /\ NoDup (dict_keys d') /\
             ~ In k (dict_keys d') /\
             (forall k', In k' (dict_keys d') -> In k' (dict_keys d)) /\
             (forall k', k' <> k -> dict_get d' k' = dict_get d k').
Proof.
  induction d as [| [k0 v0] d IH]; cbn; intros ND Hin; [contradiction |].
  inversion ND as [| ? ? Hnot ND']; subst.
  destruct (String.eqb k k0) eqn:E.
  - apply String.eqb_eq in E; subst. exists d. repeat split; auto.
    intros k' Hne. destruct (String.eqb k' k0) eqn:E'; [| reflexivity].
    apply String.eqb_eq in E'. contradiction.
  - apply String.eqb_neq in E. destruct Hin as [-> | Hin]; [contradiction |].
    destruct (IH ND' Hin) as (d' & Hd & NDd & Hk & Hsub & Hget).
    rewrite Hd. cbn. exists ((k0, v0) :: d'). cbn. repeat split.
    + constructor; auto.
    + intros [-> | Hc]; auto.
    + intros k' [-> | Hc]; auto.
    + intros k' Hne. destruct (String.eqb k' k0); auto.
Qed.

Lemma remove_untrained_app self before after :
  forall b,
  remove_untrained self (before ++ after) b =
  (seen <- remove_untrained self before b ;; remove_untrained self after seen).
Proof.
  induction before as [| k before IH]; intros b; cbn [app remove_untrained rbind];
    [reflexivity |].
  destruct (negb (_should_module_be_updated self k b)); [| apply IH].
  destruct (del_policy_batch b k); cbn [rbind]; [apply IH | reflexivity].
Qed.

Lemma remove_untrained_inv self keys :
  forall b,
  NoDup keys -> NoDup (dict_keys (policy_batches b)) ->
  (forall k, In k keys -> In k (dict_keys (policy_batches b))) ->
  exists out,
    remove_untrained self keys b = Ok out /\ count out = count b /\
    NoDup (dict_keys (policy_batches out)) /\
    (forall k, In k (dict_keys (policy_batches out)) ->
       In k (dict_keys (policy_batches b)) /\
       dict_get (policy_batches out) k = dict_get (policy_batches b) k) /\
    (forall k, ~ In k keys ->
       dict_get (policy_batches out) k = dict_get (policy_batches b) k).
Proof.
  induction keys as [| k keys IH]; intros b NDk NDb Hin; cbn [remove_untrained].
  - exists b. repeat split; auto.
  - inversion NDk as [| ? ? Hnot NDk']; subst.
    destruct (negb (_should_module_be_updated self k b)).
    + destruct (dict_del_spec (policy_batches b) k NDb (Hin k (or_introl eq_refl)))
        as (d' & Hd & NDd & Hk & Hsub & Hget).
      unfold del_policy_batch. rewrite Hd. cbn [rbind].
      destruct (IH {| policy_batches := d'; count := count b |} NDk' NDd)
        as (out & Ho & Hc & NDo & Hsub' & Hget').
      * intros k' Hk'. cbn.
        assert (k' <> k) by (intros ->; contradiction).
        apply dict_contains_keys. rewrite dict_contains_get, (Hget k') by assumption.
        rewrite <- dict_contains_get. apply dict_contains_keys. apply Hin. now right.
      * exists out. cbn in *.
        split; [exact Ho |]. split; [exact Hc |]. split; [exact NDo |]. split.
        -- intros k' Hk'. destruct (Hsub' k' Hk') as (Hk0 & ->). split.
           ++ apply Hsub. exact Hk0.
           ++ apply Hget. intros ->. contradiction.
        -- intros k' Hk'. rewrite Hget' by tauto. apply Hget. intros ->. tauto.
    + destruct (IH b NDk' NDb) as (out & Ho & Hc & NDo & Hsub' & Hget').
      * intros k' Hk'. apply Hin. now right.
      * exists out.
        split; [exact Ho |]. split; [exact Hc |]. split; [exact NDo |]. split.
        -- exact Hsub'.
        -- intros k' Hk'. apply Hget'. cbn in Hk'. tauto.
Qed.

Lemma remove_untrained_count self keys :
  forall b out, remove_untrained self keys b = Ok out -> count out = count b.
Proof.
  induction keys as [| k keys IH]; intros b out H; cbn [remove_untrained] in H.
  - now inversion H.
  - destruct (negb (_should_module_be_updated self k b)); [| now apply IH].
    destruct (del_policy_batch b k) as [b' |] eqn:E; cbn [rbind] in H; [| discriminate].
    apply IH in H. unfold del_policy_batch in E. inv_bind E.
    inversion E; subst. exact H.
Qed.

Lemma remove_untrained_all_kept self keys b :
  (forall k b', _should_module_be_updated self k b' = true) ->
  remove_untrained self keys b = Ok b.
Proof.
  intros H. induction keys as [| k keys IH]; cbn [remove_untrained]; [reflexivity |].
  rewrite H. exact IH.
Qed.

Lemma dict_no_keys_empty {A} (d : dict A) :
  (forall k, dict_contains k d = false) -> d = [].
Proof.
  destruct d as [| [k v] d]; [reflexivity |]. intros H. specialize (H k).
  cbn in H. rewrite String.eqb_refl in H. discriminate.
Qed.

Lemma remove_untrained_visit self batch before mid after out :
  NoDup (dict_keys (policy_batches batch)) ->
  dict_keys (policy_batches batch) = before ++ mid :: after ->
  remove_untrained self (dict_keys (policy_batches batch)) batch = Ok out ->
  exists seen,
    remove_untrained self before batch = Ok seen /\
    dict_contains mid (policy_batches out) = _should_module_be_updated self mid seen.
Proof.
  intros ND Hk Hout. rewrite Hk in Hout. rewrite Hk in ND.
  pose proof (NoDup_remove_2 _ _ _ ND) as Hmid.
  pose proof (NoDup_remove_1 _ _ _ ND) as ND'.
  assert (NDb : NoDup before) by (apply NoDup_app_remove_r in ND; exact ND).
  assert (NDa : NoDup after) by (apply NoDup_app_remove_l in ND'; exact ND').
  rewrite <- Hk in ND.
  destruct (remove_untrained_inv self before batch NDb ND)
    as (seen & Hs & _ & NDs & _ & Hget).
  { intros k Hin. rewrite Hk. apply in_or_app. now left. }
  exists seen. split; [exact Hs |].
  rewrite remove_untrained_app, Hs in Hout. cbn [rbind remove_untrained] in Hout.
  assert (Hin_seen : forall k, In k (mid :: after) -> In k (dict_keys (policy_batches seen))).
  { intros k Hin. apply dict_contains_keys. rewrite dict_contains_get, Hget.
    - rewrite <- dict_contains_get. apply dict_contains_keys. rewrite Hk.
      apply in_or_app. now right.
    - intros Hb. destruct Hin as [<- | Hin].
      + apply Hmid. apply in_or_app. now left.
      + rewrite Hk in ND. apply NoDup_remove_1 in ND.
        revert Hb Hin. clear - ND. revert ND. induction before as [| x before IH]; cbn.
        * tauto.
        * intros ND [-> | Hb] Hin; inversion ND; subst.
          -- apply H1. apply in_or_app. now right.
          -- eapply IH; eauto. }
  assert (Hnot_after : ~ In mid after) by (intros Hc; apply Hmid, in_or_app; now right).
  destruct (_should_module_be_updated self mid seen) eqn:Hshould; cbn [negb] in Hout.
  - destruct (remove_untrained_inv self after seen NDa NDs) as (out' & Ho' & _ & _ & _ & Hget').
    { intros k Hin. apply Hin_seen. now right. }
    rewrite Ho' in Hout. inversion Hout; subst.
    rewrite dict_contains_get, (Hget' mid Hnot_after), <- dict_contains_get.
    apply dict_contains_keys. apply Hin_seen. now left.
  - destruct (dict_del_spec (policy_batches seen) mid NDs (Hin_seen mid (or_introl eq_refl)))
      as (d' & Hd & NDd & Hkd & Hsub & Hgetd).
    unfold del_policy_batch in Hout. rewrite Hd in Hout. cbn [rbind] in Hout.
    destruct (remove_untrained_inv self after {| policy_batches := d'; count := count seen |} NDa NDd)
      as (out' & Ho' & _ & _ & _ & Hget').
    { intros k Hin. cbn. apply dict_contains_keys.
      rewrite dict_contains_get, Hgetd by (intros ->; contradiction).
      rewrite <- dict_contains_get. apply dict_contains_keys, Hin_seen. now right. }
    rewrite Ho' in Hout. inversion Hout; subst.
    rewrite dict_contains_get, (Hget' mid Hnot_after). cbn.
    now rewrite (dict_get_missing_key d' mid Hkd).
Qed.

Lemma dict_set_keys {A} (d : dict A) k v :
  dict_keys (dict_set d k v) =
  if dict_contains k d then dict_keys d else dict_keys d ++ [k].
Proof.
  induction d as [| [k' v'] d IH]; cbn; [reflexivity |].
  destruct (String.eqb k k') eqn:E; cbn; [reflexivity |].
  fold (dict_keys (dict_set d k v)). rewrite IH.
  fold (dict_contains k d). now destruct (dict_contains k d).
Qed.

Lemma dict_set_NoDup {A} (d : dict A) k v :
  NoDup (dict_keys d) -> NoDup (dict_keys (dict_set d k v)).
Proof.
  intros ND. rewrite dict_set_keys. destruct (dict_contains k d) eqn:E; [exact ND |].
  apply NoDup_app; [exact ND | repeat constructor; auto |].
  intros x Hx [<- | []]. apply dict_contains_keys in Hx. congruence.
Qed.

Lemma dict_map_values_NoDup {A B} (f : A -> B) (d : dict A) :
  NoDup (dict_keys (dict_map_values f d)).
Proof.
  unfold dict_map_values.
  assert (H : forall acc : dict B, NoDup (dict_keys acc) ->
            NoDup (dict_keys (fold_left
              (fun acc kv => dict_set acc (fst kv) (f (snd kv))) d acc))).
  { induction d as [| kv d IH]; cbn; intros acc ND; [exact ND |].
    apply IH. now apply dict_set_NoDup. }
  apply H. constructor.
Qed.

Lemma sum_env_steps_rows episodes :
  Forall (fun e => List.length (observations e) = 2) episodes ->
  sum_env_steps episodes = Z.of_nat (List.length episodes).
Proof.
  unfold sum_env_steps. intros H.
  assert (G : forall acc, fold_left (fun acc e => (acc + env_steps e)%Z) episodes acc
                          = (acc + Z.of_nat (List.length episodes))%Z).
  { induction H as [| e l He Hl IH]; intros acc; cbn [fold_left List.length].
    - lia.
    - rewrite IH. unfold env_steps. rewrite He. lia. }
  apply G.
Qed.

Lemma map_to_episodes_returns X flag batch out :
  _map_to_episodes X flag batch = Ok out ->
  exists episodes,
    out = [("episodes", episodes)] /\
    List.length episodes = num_rows batch /\
    Forall (fun e => List.length (observations e) = 2) episodes.
Proof.
  unfold _map_to_episodes. intros H. inv_bind H. inversion H; subst; clear H.
  apply episodes_loop_returns in E0; [| discriminate].
  destruct E0 as (new & -> & Hlen & Hf). exists new. cbn.
  unfold num_rows. rewrite E. auto.
Qed.

(** C7: whatever [__call__] returns is [batch -> [b]] for a single
    module-keyed batch [b], whose step count is the sum of the step counts of
    the episodes made from the raw batch, which is its number of rows; and on
    a well-formed single-agent batch, with a connector that returns, the call
    does return. *)
Theorem call_returns_one_batch_with_step_count X self batch :
  (forall out, OfflinePreLearner__call__ X self batch = Ok out ->
     exists episodes mab,
       _map_to_episodes X (_is_multi_agent self) batch = Ok [("episodes", episodes)] /\
       out = [("batch", [mab])] /\
       count mab = sum_env_steps episodes /\
       count mab = Z.of_nat (num_rows batch)) /\
  (_is_multi_agent self = false ->
   rectangular batch = true ->
   forallb (fun k => dict_contains k batch) (required_columns (Columns X)) = true ->
   dict_contains (TERMINATEDS (Columns X)) batch || dict_contains "dones" batch = true ->
   (forall episodes, exists d, _learner_connector self (_module self) episodes = Ok d) ->
   exists out, OfflinePreLearner__call__ X self batch = Ok out).
Proof.
  split.
  - intros out H. unfold OfflinePreLearner__call__ in H.
    destruct (_map_to_episodes X (_is_multi_agent self) batch) as [eps_dict |] eqn:Em;
      cbn [rbind] in H; [| discriminate].
    destruct (map_to_episodes_returns _ _ _ _ Em) as (episodes & -> & Hlen & Hf).
    cbn in H. inv_bind H. inversion H; subst; clear H.
    apply remove_untrained_count in E0. cbn in E0.
    exists episodes, a0. repeat split; auto.
    rewrite E0, sum_env_steps_rows, Hlen; auto.
  - intros Hflag R Hreq Hterm Hconn. unfold OfflinePreLearner__call__. rewrite Hflag.
    destruct (map_to_episodes_rows X batch R Hreq) as (episodes & -> & _).
    { destruct (dict_contains (TERMINATEDS (Columns X)) batch) eqn:E; [exact E | exact Hterm]. }
    cbn [rbind].
    change (dict_get [("episodes", episodes)] "episodes") with (Ok episodes).
    cbn [rbind]. destruct (Hconn episodes) as (d & ->). cbn [rbind]. cbv zeta.
    set (mab := {| policy_batches := dict_map_values MkSampleBatch d;
                   count := sum_env_steps episodes |}).
    destruct (remove_untrained_inv self (dict_keys (policy_batches mab)) mab)
      as (out & -> & _); try apply dict_map_values_NoDup; auto.
    cbn [rbind]. eauto.
Qed.

(** C6, amended: the filtering loop of [__call__] returns, keeps the step
    count and the kept sub-batches as they were, and keeps a module exactly
    when the inclusion check held on the batch as the loop had left it when
    the module was visited.  When the check does not depend on the batch it
    is the check on the full batch: with no (or an empty) policy the batch
    is unchanged, with a fixed collection exactly its members remain, with
    an always-false predicate nothing remains. *)
Theorem remove_untrained_keeps_checked_modules self batch :
  NoDup (dict_keys (policy_batches batch)) ->
  exists out,
    remove_untrained self (dict_keys (policy_batches batch)) batch = Ok out /\
    count out = count batch /\
    (forall mid, In mid (dict_keys (policy_batches out)) ->
       In mid (dict_keys (policy_batches batch)) /\
       dict_get (policy_batches out) mid = dict_get (policy_batches batch) mid) /\
    (forall before mid after,
       dict_keys (policy_batches batch) = before ++ mid :: after ->
       exists seen,
         remove_untrained self before batch = Ok seen /\
         dict_contains mid (policy_batches out) =
           _should_module_be_updated self mid seen) /\
    ((forall mid b, _should_module_be_updated self mid b =
                    _should_module_be_updated self mid batch) ->
     forall mid, dict_contains mid (policy_batches out) =
                 dict_contains mid (policy_batches batch) &&
                 _should_module_be_updated self mid batch) /\
    (policies_falsy (_policies_to_train self) = true -> out = batch) /\
    (forall ids, _policies_to_train self = PolicyCollection ids -> ids <> [] ->
       forall mid, In mid (dict_keys (policy_batches out)) <->
                   In mid (dict_keys (policy_batches batch)) /\ In mid ids) /\
    (forall f, _policies_to_train self = PolicyCallable f ->
       (forall mid b, f mid b = false) -> policy_batches out = []).
Proof.
  intros ND.
  destruct (remove_untrained_inv self _ batch ND ND (fun k H => H))
    as (out & Hout & Hcount & _ & Hsub & _).
  assert (Hvisit : forall before mid after,
            dict_keys (policy_batches batch) = before ++ mid :: after ->
            exists seen,
              remove_untrained self before batch = Ok seen /\
              dict_contains mid (policy_batches out) =
                _should_module_be_updated self mid seen).
  { intros before mid after Hk. eapply remove_untrained_visit; eauto. }
  assert (Hfree : (forall mid b, _should_module_be_updated self mid b =
                                 _should_module_be_updated self mid batch) ->
            forall mid, dict_contains mid (policy_batches out) =
                        dict_contains mid (policy_batches batch) &&
                        _should_module_be_updated self mid batch).
  { intros Hind mid.
    destruct (dict_contains mid (policy_batches batch)) eqn:Hin; cbn [andb].
    - apply dict_contains_keys in Hin. apply in_split in Hin.
      destruct Hin as (before & after & Hk).
      destruct (Hvisit before mid after Hk) as (seen & _ & ->). apply Hind.
    - destruct (dict_contains mid (policy_batches out)) eqn:Ho; [| reflexivity].
      apply dict_contains_keys, Hsub in Ho. destruct Ho as (Ho & _).
      apply dict_contains_keys in Ho. congruence. }
  exists out.
  split; [exact Hout |]. split; [exact Hcount |]. split; [exact Hsub |].
  split; [exact Hvisit |]. split; [exact Hfree |]. split; [| split].
  - intros Hf. rewrite remove_untrained_all_kept in Hout; [congruence |].
    intros k b'. unfold _should_module_be_updated. now rewrite Hf.
  - intros ids Hp Hne mid.
    assert (Hs : forall m b, _should_module_be_updated self m b = str_in m ids).
    { intros m b. unfold _should_module_be_updated. rewrite Hp.
      destruct ids; [contradiction | reflexivity]. }
    rewrite <- !dict_contains_keys, Hfree by (intros; now rewrite !Hs).
    rewrite Hs, andb_true_iff. unfold str_in. rewrite existsb_exists.
    split; intros (H1 & H2); split; auto.
    + destruct H2 as (x & Hx & E). apply String.eqb_eq in E. now subst.
    + exists mid. split; [exact H2 | apply String.eqb_refl].
  - intros f Hp Hf.
    assert (Hs : forall m b, _should_module_be_updated self m b = false).
    { intros m b. unfold _should_module_be_updated. rewrite Hp. cbn. apply Hf. }
    apply dict_no_keys_empty. intros k.
    rewrite Hfree by (intros; now rewrite !Hs). rewrite Hs. apply andb_false_r.
Qed.

(** Policy [{A}], modules [{A, B}]: only [A] remains. *)
Example fixed_set_keeps_only_A :
  remove_untrained (local_prelearner (PolicyCollection ["A"]) ["A"; "B"])
    (dict_keys (policy_batches batch_AB)) batch_AB =
  Ok {| policy_batches := [("A", MkSampleBatch [("obs", [VInt 1])])]; count := 2 |}.
Proof. reflexivity. Qed.

(** C6, counterexample: with a predicate that reads the batch, module [B]
    passes the check on the full batch, yet the loop drops it, because the
    predicate is handed the batch from which [A] has already been deleted. *)
Lemma predicate_sees_the_filtered_batch :
  let self := local_prelearner train_beside_A ["A"; "B"] in
  modules_kept_by_spec self batch_AB = ["B"] /\
  remove_untrained self (dict_keys (policy_batches batch_AB)) batch_AB =
    Ok {| policy_batches := []; count := 2 |}.
Proof. split; reflexivity. Qed.

(** ** Learner selection *)

Lemma select_index {A} (l : list A) indices :
  Forall (fun i => i < List.length l) indices ->
  exists l', select (index l) indices = Ok l' /\
             List.length l' = List.length indices /\
             forall k i, nth_error indices k = Some i -> nth_error l' k = nth_error l i.
Proof.
  induction 1 as [| i indices Hi _ IH]; cbn [select].
  - exists []. repeat split; auto. intros [| k] i; discriminate.
  - destruct (index_in_range l i Hi) as (x & Hx & Hn). rewrite Hx. cbn [rbind].
    destruct IH as (l' & -> & Hlen & Hnth). cbn [rbind].
    exists (x :: l'). cbn. repeat split; auto.
    intros [| k] i'; cbn; intros H; [inversion H; subst; auto | eauto].
Qed.

Lemma choose_same_node_found node ls hs h :
  forall i slot,
  (forall k, nth_error hs k = Some node -> nth_error ls (i + k) = Some h) ->
  choose_same_node node ls hs i slot =
  Ok (if existsb (fun hint => String.eqb hint node) hs then Some h else slot).
Proof.
  induction hs as [| hint hs IH]; intros i slot H; cbn [choose_same_node existsb];
    [reflexivity |].
  assert (H' : forall k, nth_error hs k = Some node -> nth_error ls (S i + k) = Some h).
  { intros k Hk. rewrite Nat.add_succ_l, <- Nat.add_succ_r. apply H. exact Hk. }
  destruct (String.eqb hint node) eqn:E; cbn [orb].
  - apply String.eqb_eq in E; subst.
    specialize (H 0 eq_refl). rewrite Nat.add_0_r in H.
    unfold index. rewrite H. cbn [rbind]. rewrite (IH (S i) (Some h) H').
    now destruct (existsb _ hs).
  - apply IH. exact H'.
Qed.

Lemma choose_same_node_none node ls hs :
  forall i slot, ~ In node hs -> choose_same_node node ls hs i slot = Ok slot.
Proof.
  induction hs as [| hint hs IH]; intros i slot H; cbn [choose_same_node];
    [reflexivity |].
  destruct (String.eqb hint node) eqn:E.
  - apply String.eqb_eq in E. subst. exfalso. apply H. now left.
  - apply IH. intros Hc. apply H. now right.
Qed.

Lemma shuffled_indices_in_range X g n :
  shuffle_permutes X ->
  Forall (fun i => i < n) (fst (random_shuffle X g (seq 0 n))).
Proof.
  intros HP. apply Forall_forall. intros i Hi.
  apply (Permutation_in _ (HP g (seq 0 n))) in Hi. apply in_seq in Hi. lia.
Qed.

(** C2: when exactly one locality hint equals the worker's node id, the
    remote branch of [__init__] binds the handle paired with that hint,
    whatever permutation the shuffle produces; the generator is advanced by
    the shuffle alone, so no random fallback is drawn. *)
Theorem same_node_learner_is_bound X cfg handles hints spec state w j h :
  shuffle_permutes X ->
  List.length handles = List.length hints ->
  nth_error hints j = Some (node_id w) ->
  (forall k, nth_error hints k = Some (node_id w) -> k = j) ->
  nth_error handles j = Some h ->
  exists pl,
    OfflinePreLearner__init__ X cfg (Listed handles) (Some hints) (Some spec) state w =
      (Ok pl, {| node_id := node_id w;
                 rng := snd (random_shuffle X (rng w) (seq 0 (List.length hints))) |}) /\
    _learner pl = h /\ learner_is_remote pl = true.
Proof.
  intros HP Hlen Hj Huniq Hh.
  pose proof (shuffled_indices_in_range X (rng w) (List.length hints) HP) as Hrange.
  pose proof (HP (rng w) (seq 0 (List.length hints))) as Hperm.
  unfold OfflinePreLearner__init__, bind_remote_learner, mbind, get_node_id, mlift,
    shuffle, mret, mraise. cbn [is_local_learner hints_list].
  destruct (random_shuffle X (rng w) (seq 0 (List.length hints))) as [indices g].
  cbn [fst snd node_id] in *.
  destruct (select_index hints indices Hrange) as (hs' & -> & Hl1 & Hn1).
  rewrite <- Hlen in Hrange.
  destruct (select_index handles indices Hrange) as (ls' & Hs2 & Hl2 & Hn2).
  change (learner_getitem (Listed handles)) with (@index LearnerObj handles).
  rewrite Hs2.
  rewrite (choose_same_node_found (node_id w) ls' hs' h 0 None).
  - assert (Hex : existsb (fun hint => String.eqb hint (node_id w)) hs' = true).
    { assert (Hin : In j indices).
      { apply (Permutation_in _ (Permutation_sym Hperm)). apply in_seq.
        assert (j < List.length hints) by (apply nth_error_Some; congruence). lia. }
      apply In_nth_error in Hin. destruct Hin as (k & Hk).
      apply existsb_exists. exists (node_id w). split; [| apply String.eqb_refl].
      apply nth_error_In with k. rewrite (Hn1 k j Hk). exact Hj. }
    rewrite Hex. cbn. eauto.
  - intros k Hk. cbn [Nat.add].
    destruct (nth_error indices k) as [i |] eqn:Hi.
    + rewrite (Hn1 k i Hi) in Hk. apply Huniq in Hk. subst i.
      rewrite (Hn2 k j Hi). exact Hh.
    + apply nth_error_None in Hi.
      assert (k < List.length hs') by (apply nth_error_Some; congruence). lia.
Qed.

Lemma select_index_In {A} (l : list A) indices l' :
  select (index l) indices = Ok l' -> forall x, In x l' -> In x l.
Proof.
  revert l'. induction indices as [| i indices IH]; cbn [select]; intros l' H x Hx.
  - inversion H; subst. contradiction.
  - inv_bind H. inversion H; subst. destruct Hx as [<- | Hx]; [| eauto].
    unfold index in E. destruct (nth_error l i) eqn:En; [| discriminate].
    inversion E; subst. eapply nth_error_In; eauto.
Qed.

(** Without a hint equal to the worker's node id the loop assigns nothing,
    and the test [not self._learner] reads an attribute that does not exist. *)
Lemma no_same_node_learner_raises X cfg handles hints spec state w :
  shuffle_permutes X ->
  List.length handles = List.length hints ->
  ~ In (node_id w) hints ->
  fst (OfflinePreLearner__init__ X cfg (Listed handles) (Some hints) spec state w) =
    Err (AttributeError "_learner").
Proof.
  intros HP Hlen Hno.
  pose proof (shuffled_indices_in_range X (rng w) (List.length hints) HP) as Hrange.
  unfold OfflinePreLearner__init__, bind_remote_learner, mbind, get_node_id, mlift,
    shuffle, mret, mraise. cbn [is_local_learner hints_list].
  destruct (random_shuffle X (rng w) (seq 0 (List.length hints))) as [indices g].
  cbn [fst snd node_id] in *.
  destruct (select_index hints indices Hrange) as (hs' & Hs1 & Hl1 & Hn1).
  rewrite Hs1. rewrite <- Hlen in Hrange.
  destruct (select_index handles indices Hrange) as (ls' & Hs2 & Hl2 & Hn2).
  change (learner_getitem (Listed handles)) with (@index LearnerObj handles).
  rewrite Hs2.
  rewrite choose_same_node_none; [reflexivity |].
  intros Hc. apply Hno. eapply select_index_In; eauto.
Qed.

(** C1: two handles on the nodes [node-1] and [node-2], a worker on
    [node-0]: the constructor raises [AttributeError] instead of binding a
    randomly chosen handle. *)
Theorem remote_selection_without_local_hint_raises :
  OfflinePreLearner__init__ local_collaborators (config_of "data" PolicyNone ["A"])
    (Listed [ActorHandle 0; ActorHandle 1]) (Some ["node-1"; "node-2"])
    (Some {| spec_module_ids := ["A"] |}) None {| node_id := "node-0"; rng := 0 |} =
  (Err (AttributeError "_learner"), {| node_id := "node-0"; rng := 1 |}).
Proof. reflexivity. Qed.

(** ** Sampling *)

Lemma fetches_app tr tr' : fetches (tr ++ tr') = fetches tr + fetches tr'.
Proof.
  unfold fetches. now rewrite filter_app, length_app.
Qed.

Lemma with_learners_same self :
  with_learners self (learner_handles self) (locality_hints self) (module_spec self) = self.
Proof. now destruct self. Qed.

(** C8: a multi-shard [sample] call on a loaded facade whose first learner
    handle answers fetches the module state from that handle once, before
    the map stage is set up, and every one of the [num_shards] transform
    units of that stage is constructed with the fetched state, the full
    handle list and the locality hints. *)
Theorem multi_shard_sample_fetches_snapshot_once
    X self tr num_samples num_shards a rest ds state :
  (1 < num_shards)%Z ->
  learner_handles self = Some (ActorHandle a :: rest) ->
  data self = Some ds ->
  remote_get_state X tr a (COMPONENT_RL_MODULE X) = Ok state ->
  let kw := {| kw_config := od_config self;
               kw_learner := Listed (ActorHandle a :: rest);
               kw_locality_hints := locality_hints self;
               kw_module_spec := module_spec self;
               kw_module_state := Some state |} in
  let mapped := MapBatches ds kw num_shards num_samples true in
  let tr' := tr ++ [EvGetState (ActorHandle a) (COMPONENT_RL_MODULE X);
                    EvMapBatches kw num_shards] in
  sample X num_samples true num_shards {| self_ := self; trace := tr |} =
    (Ok (Shards (StreamingSplit mapped num_shards false (locality_hints self))),
     {| self_ := self; trace := tr' |}) /\
  fetches tr' = fetches tr + 1 /\
  exists units,
    transform_units mapped = transform_units ds ++ units /\
    List.length units = Z.to_nat num_shards /\
    Forall (fun u => kw_module_state u = Some state /\
                     kw_learner u = Listed (ActorHandle a :: rest) /\
                     kw_locality_hints u = locality_hints self) units.
Proof.
  intros Hn Hh Hd Hs kw mapped tr'. split; [| split].
  - unfold sample, mbind, get_self, mret. cbn [self_ negb orb andb].
    assert (E1 : (num_shards <=? 1)%Z = false) by (apply Z.leb_gt; exact Hn).
    assert (E2 : (1 <? num_shards)%Z = true) by (apply Z.ltb_lt; exact Hn).
    rewrite E1, E2. cbn [andb].
    unfold learner_handle_0, get_state_remote, attr_data, mlift, map_batches, emit,
      mbind, mmodify, mret.
    cbn [self_ trace]. rewrite Hh. cbn [index nth_error self_ trace]. rewrite Hs.
    cbn [self_ trace]. rewrite Hd. cbn [self_ trace].
    subst tr' mapped kw. rewrite <- app_assoc. reflexivity.
  - subst tr'. rewrite fetches_app. reflexivity.
  - exists (repeat kw (Z.to_nat num_shards)). split; [reflexivity |].
    split; [apply repeat_length |].
    apply Forall_forall. intros u Hu. apply repeat_spec in Hu. subst u. auto.
Qed.

(** C4, amended: after a failed load every [sample] call fails and leaves
    the facade as it was.  In the single-batch and single-shard modes the
    failure is the [AttributeError] of the unassigned [data] attribute,
    raised before anything else happens; in the multi-shard mode it is
    raised after the snapshot fetch, when that fetch succeeds. *)
Theorem sample_after_failed_load_fails
    X cfg e handles hints spec tr num_samples return_iterator num_shards :
  ray_data_read X (data_read_method (OfflineData__init__ X cfg))
    (path (OfflineData__init__ X cfg))
    (data_read_method_kwargs (OfflineData__init__ X cfg)) = Err e ->
  let self := with_learners (OfflineData__init__ X cfg) handles hints spec in
  exists err tr',
    sample X num_samples return_iterator num_shards {| self_ := self; trace := tr |} =
      (Err err, {| self_ := self; trace := tr' |}) /\
    (return_iterator && (1 <? num_shards)%Z = false ->
     err = AttributeError "data" /\ tr' = tr) /\
    (return_iterator && (1 <? num_shards)%Z = true ->
     forall a rest state,
       handles = Some (ActorHandle a :: rest) ->
       remote_get_state X tr a (COMPONENT_RL_MODULE X) = Ok state ->
       err = AttributeError "data" /\
       tr' = tr ++ [EvGetState (ActorHandle a) (COMPONENT_RL_MODULE X)]).
Proof.
  intros Hread self.
  assert (Hd : data self = None).
  { subst self. cbn in *. now rewrite Hread. }
  assert (Hb : batch_iterator self = None) by reflexivity.
  assert (Hl : learner_handles self = handles) by reflexivity.
  clearbody self.
  unfold sample, mbind, get_self, mret. cbn [self_]. rewrite Hb.
  cbn [iterator_truthy negb andb]. rewrite andb_true_r.
  destruct return_iterator; cbn [negb orb andb].
  - destruct (1 <? num_shards)%Z eqn:E.
    + assert (E' : (num_shards <=? 1)%Z = false)
        by (apply Z.leb_gt; apply Z.ltb_lt; exact E).
      rewrite E'. cbn [self_].
      unfold learner_handle_0, get_state_remote, attr_data, mlift, mbind, mraise.
      cbn [self_ trace]. rewrite Hl.
      destruct handles as [[| [m | a] rest] |]; cbn [index nth_error self_ trace].
      * eexists _, _. split; [reflexivity |]. split; [discriminate |].
        intros _ a' rest' state H. discriminate.
      * eexists _, _. split; [reflexivity |]. split; [discriminate |].
        intros _ a' rest' state H. discriminate.
      * destruct (remote_get_state X tr a (COMPONENT_RL_MODULE X)) eqn:Es;
           cbn [self_ trace]; try rewrite Hd.
        -- eexists _, _. split; [reflexivity |]. split; [discriminate |].
           intros _ a' rest' state H Hs. inversion H; subst. auto.
        -- eexists _, _. split; [reflexivity |]. split; [discriminate |].
           intros _ a' rest' state H Hs. inversion H; subst. congruence.
      * eexists _, _. split; [reflexivity |]. split; [discriminate |].
        intros _ a' rest' state H. discriminate.
    + assert (E' : (num_shards <=? 1)%Z = true)
        by (apply Z.leb_le; apply Z.ltb_ge; exact E).
      rewrite E'. unfold attr_data. cbn [self_]. rewrite Hd.
      eexists _, _. split; [reflexivity |]. split; [auto | discriminate].
  - unfold attr_data. cbn [self_]. rewrite Hd.
    eexists _, _. split; [reflexivity |]. split; [auto | discriminate].
Qed.

(** C4, counterexample: a facade constructed on a path the reader rejects;
    a single-batch call raises [AttributeError], a multi-shard call raises
    the [TypeError] of subscripting the unset learner handles. *)
Lemma failed_load_then_sample_unrelated_error :
  let self := OfflineData__init__ local_collaborators (config_of "" PolicyNone ["A"]) in
  let w := {| self_ := self; trace := [] |} in
  data self = None /\
  fst (sample local_collaborators 32 false 1 w) = Err (AttributeError "data") /\
  fst (sample local_collaborators 32 true 2 w) = Err TypeError.
Proof. repeat split. Qed.

(** ** The theorems at concrete inputs *)

Lemma rev_shuffle_permutes : shuffle_permutes local_collaborators.
Proof.
  intros g l. cbn. apply Permutation_sym, Permutation_rev.
Qed.

(** C2 at two handles, the worker on the second one's node. *)
Lemma same_node_learner_is_bound_witness :
  exists pl,
    OfflinePreLearner__init__ local_collaborators (config_of "data" PolicyNone ["A"])
      (Listed [ActorHandle 0; ActorHandle 1]) (Some ["node-1"; "node-2"])
      (Some {| spec_module_ids := ["A"] |}) None {| node_id := "node-2"; rng := 0 |} =
      (Ok pl, {| node_id := "node-2"; rng := 1 |}) /\
    _learner pl = ActorHandle 1 /\ learner_is_remote pl = true.
Proof.
  apply (same_node_learner_is_bound local_collaborators
           (config_of "data" PolicyNone ["A"])
           [ActorHandle 0; ActorHandle 1] ["node-1"; "node-2"]
           {| spec_module_ids := ["A"] |} None {| node_id := "node-2"; rng := 0 |}
           1 (ActorHandle 1)).
  - exact rev_shuffle_permutes.
  - reflexivity.
  - reflexivity.
  - intros [| [| [| k]]]; cbn; intros H; try reflexivity; discriminate H.
  - reflexivity.
Defined.

(** C3 at a batch with rows but no [obs] column, in multi-agent mode, and at
    a one-row single-agent batch without the next-observation column. *)
Lemma missing_required_column_raises_key_error_witness :
  _map_to_episodes local_collaborators true
    [("eps_id", [VInt 7; VInt 7]); ("new_obs", [VInt 2])] = Err (KeyError "obs") /\
  _map_to_episodes local_collaborators false
    [("obs", [VInt 1]); ("eps_id", [VInt 7])] = Err (KeyError "new_obs").
Proof.
  split.
  - destruct (missing_required_column_raises_key_error local_collaborators true
                [("eps_id", [VInt 7; VInt 7]); ("new_obs", [VInt 2])] "rewards")
      as (c & Hfirst & _ & _ & H); [cbn; tauto | reflexivity |].
    cbn in Hfirst. inversion Hfirst; subst c. apply H. left. reflexivity.
  - destruct (missing_required_column_raises_key_error local_collaborators false
                [("obs", [VInt 1]); ("eps_id", [VInt 7])] "rewards")
      as (c & Hfirst & _ & _ & H); [cbn; tauto | reflexivity |].
    cbn in Hfirst. inversion Hfirst; subst c. apply H. right.
    split; [reflexivity |]. split; [cbn; lia | reflexivity].
Defined.

(** C4 at a facade on the empty path, learners assigned afterwards. *)
Lemma sample_after_failed_load_fails_witness :
  let self := with_learners
                (OfflineData__init__ local_collaborators (config_of "" PolicyNone ["A"]))
                (Some [ActorHandle 0]) (Some ["node-1"]) None in
  sample local_collaborators 32 false 1 {| self_ := self; trace := [] |} =
    (Err (AttributeError "data"), {| self_ := self; trace := [] |}).
Proof.
  intros self.
  destruct (sample_after_failed_load_fails local_collaborators
              (config_of "" PolicyNone ["A"]) (ExternalError "no such file")
              (Some [ActorHandle 0]) (Some ["node-1"]) None [] 32 false 1 eq_refl)
    as (err & tr' & Hs & Hsingle & _).
  destruct (Hsingle eq_refl) as (He & Ht).
  fold self in Hs. rewrite He, Ht in Hs. exact Hs.
Defined.

(** C5 at the three-row batch [full_batch]. *)
Lemma map_to_episodes_one_episode_per_row_witness :
  all_reserved_present rllib_columns full_batch = true /\
  exists episodes,
    _map_to_episodes local_collaborators false full_batch = Ok [("episodes", episodes)] /\
    List.length episodes = 3.
Proof.
  split; [reflexivity |].
  destruct (map_to_episodes_one_episode_per_row local_collaborators full_batch)
    as (episodes & H & Hlen & _); [reflexivity | reflexivity | reflexivity |].
  exists episodes. split; [exact H | exact Hlen].
Defined.

(** C6 at the policy [{A}] on the batch with the modules [A] and [B]. *)
Lemma remove_untrained_keeps_checked_modules_witness :
  let self := local_prelearner (PolicyCollection ["A"]) ["A"; "B"] in
  exists out,
    remove_untrained self (dict_keys (policy_batches batch_AB)) batch_AB = Ok out /\
    count out = 2%Z /\
    (In "A" (dict_keys (policy_batches out)) <->
     In "A" (dict_keys (policy_batches batch_AB)) /\ In "A" ["A"]) /\
    (In "B" (dict_keys (policy_batches out)) <->
     In "B" (dict_keys (policy_batches batch_AB)) /\ In "B" ["A"]).
Proof.
  intros self.
  destruct (remove_untrained_keeps_checked_modules self batch_AB)
    as (out & Hout & Hcount & _ & _ & _ & _ & Hfixed & _).
  - cbn. repeat constructor; cbn; intuition discriminate.
  - exists out. split; [exact Hout |]. split; [exact Hcount |].
    split; apply (Hfixed ["A"] eq_refl); discriminate.
Defined.

(** C7 at the three-row batch [full_batch] and a unit that updates all
    modules. *)
Lemma call_returns_one_batch_with_step_count_witness :
  exists out mab,
    OfflinePreLearner__call__ local_collaborators
      (local_prelearner PolicyNone ["A"]) full_batch = Ok out /\
    out = [("batch", [mab])] /\ count mab = 3%Z.
Proof.
  destruct (call_returns_one_batch_with_step_count local_collaborators
              (local_prelearner PolicyNone ["A"]) full_batch) as (Hshape & Hret).
  destruct Hret as (out & Hout);
    [reflexivity | reflexivity | reflexivity | reflexivity | |].
  - intros episodes. eexists. reflexivity.
  - destruct (Hshape out Hout) as (episodes & mab & _ & Ho & _ & Hc).
    exists out, mab. split; [exact Hout |]. split; [exact Ho | exact Hc].
Defined.

(** C8 at four shards, four handles on four nodes. *)
Lemma multi_shard_sample_fetches_snapshot_once_witness :
  let handles := [ActorHandle 0; ActorHandle 1; ActorHandle 2; ActorHandle 3] in
  let hints := ["node-1"; "node-2"; "node-3"; "node-4"] in
  let self := with_learners
                (OfflineData__init__ local_collaborators
                   (config_of "data" PolicyNone ["A"]))
                (Some handles) (Some hints) (Some {| spec_module_ids := ["A"] |}) in
  let ds := ReadDataset "read_json" (PathOf "data")
              [("override_num_blocks", VInt 2)] in
  let kw := {| kw_config := od_config self;
               kw_learner := Listed handles;
               kw_locality_hints := Some hints;
               kw_module_spec := Some {| spec_module_ids := ["A"] |};
               kw_module_state := Some (VInt 0) |} in
  let tr' := [] ++ [EvGetState (ActorHandle 0) "rl_module"; EvMapBatches kw 4] in
  sample local_collaborators 32 true 4 {| self_ := self; trace := [] |} =
    (Ok (Shards (StreamingSplit (MapBatches ds kw 4 32 true) 4 false (Some hints))),
     {| self_ := self; trace := tr' |}) /\
  fetches tr' = fetches [] + 1 /\
  exists units,
    transform_units (MapBatches ds kw 4 32 true) = transform_units ds ++ units /\
    List.length units = Z.to_nat 4 /\
    Forall (fun u => kw_module_state u = Some (VInt 0) /\
                     kw_learner u = Listed handles /\
                     kw_locality_hints u = Some hints) units.
Proof.
  intros handles hints self ds kw tr'.
  apply (multi_shard_sample_fetches_snapshot_once local_collaborators self []
           32 4 0 [ActorHandle 1; ActorHandle 2; ActorHandle 3] ds (VInt 0)).
  - lia.
  - reflexivity.
  - reflexivity.
  - reflexivity.
Defined.

(** C10 at a one-row batch with the five required columns only. *)
Lemma terminated_flag_required_truncated_optional_witness :
  let batch : RawBatch :=
    [("obs", [VInt 1]); ("eps_id", [VInt 7]); ("new_obs", [VInt 2]);
     ("actions", [VInt 0]); ("rewards", [VInt 1])] in
  _map_to_episodes local_collaborators false batch = Err (KeyError "dones") /\
  exists episodes,
    _map_to_episodes local_collaborators false (batch ++ [("dones", [VBool true])]) =
      Ok [("episodes", episodes)] /\
    Forall (fun e => truncated e = VBool false) episodes.
Proof.
  intros batch. split.
  - apply (terminated_flag_required_truncated_optional local_collaborators batch);
      try reflexivity. cbn. lia.
  - destruct (terminated_flag_required_truncated_optional local_collaborators
                (batch ++ [("dones", [VBool true])])) as (_ & H);
      [reflexivity | cbn; lia | reflexivity |].
    destruct H as (episodes & H1 & _ & H2); [reflexivity | reflexivity |].
    exists episodes. split; [exact H1 | exact H2].
Defined.

(** * Further properties *)

(** ** Rows and episodes *)

Lemma episodes_loop_single_inv X batch rows :
  forall i ep acc res,
  episodes_loop X false batch rows i ep acc = Ok res ->
  exists new,
    res = acc ++ new /\
    forall j e, nth_error new j = Some e ->
      exists obs, nth_error rows j = Some obs /\
                  single_agent_episode X batch (i + j) obs VNone = Ok e.
Proof.
  induction rows as [| obs rows IH]; intros i ep acc res H.
  - cbn in H. inversion H; subst. exists []. rewrite app_nil_r. split; [reflexivity |].
    intros [| j] e Hj; discriminate.
  - cbn [episodes_loop] in H. unfold loop_body in H. cbn [row_agent_id rbind] in H.
    destruct (single_agent_episode X batch i obs VNone) as [e0 |] eqn:E;
      cbn [rbind] in H; [| discriminate].
    apply IH in H. destruct H as (new & -> & Hnew).
    exists (e0 :: new). rewrite <- app_assoc. split; [reflexivity |].
    intros [| j] e Hj; cbn in Hj.
    + inversion Hj; subst. exists obs. rewrite Nat.add_0_r. auto.
    + destruct (Hnew j e Hj) as (o & Ho & Hs). exists o. split; [exact Ho |].
      rewrite <- Nat.add_succ_comm. exact Hs.
Qed.

Lemma map_to_episodes_single_row X batch episodes i e :
  _map_to_episodes X false batch = Ok [("episodes", episodes)] ->
  nth_error episodes i = Some e ->
  exists obs, cell batch "obs" i = Some obs /\
              single_agent_episode X batch i obs VNone = Ok e.
Proof.
  unfold _map_to_episodes. intros H Hi. inv_bind H. inversion H; subst; clear H.
  apply episodes_loop_single_inv in E0. destruct E0 as (new & -> & Hnew).
  cbn in Hi. destruct (Hnew i e Hi) as (obs & Ho & Hs).
  exists obs. unfold cell. rewrite E. auto.
Qed.

Lemma cell_of_get (batch : RawBatch) k col i x :
  dict_get batch k = Ok col -> index col i = Ok x -> cell batch k i = Some x.
Proof.
  intros Hg Hx. unfold cell. rewrite Hg. unfold index in Hx.
  destruct (nth_error col i); congruence.
Qed.

Lemma single_agent_episode_optional X batch i obs agent e :
  let C := Columns X in
  single_agent_episode X batch i obs agent = Ok e ->
  cell batch (if dict_contains (TERMINATEDS C) batch then TERMINATEDS C else "dones") i
    = Some (terminated e) /\
  (if dict_contains (TRUNCATEDS C) batch
   then cell batch (TRUNCATEDS C) i = Some (truncated e)
   else truncated e = VBool false) /\
  (exists info, infos e = [VDict []; info] /\
     if dict_contains (INFOS C) batch
     then cell batch (INFOS C) i = Some info
     else info = VDict []) /\
  extra_outputs C batch i [] = Ok (extra_model_outputs e).
Proof.
  intros C. subst C. unfold single_agent_episode. cbv zeta. intros H.
  inv_bind H. inversion H; subst; clear H.
  cbn [terminated truncated infos extra_model_outputs].
  split; [eapply cell_of_get; eassumption |].
  split; [| split; [| reflexivity]].
  - destruct (dict_contains (TRUNCATEDS (Columns X)) batch).
    + inv_bind E10. eapply cell_of_get; eassumption.
    + congruence.
  - eexists. split; [reflexivity |].
    destruct (dict_contains (INFOS (Columns X)) batch).
    + inv_bind E3. eapply cell_of_get; eassumption.
    + congruence.
Qed.

Lemma dict_set_fresh {A} (d : dict A) k v :
  ~ In k (dict_keys d) -> dict_set d k v = d ++ [(k, v)].
Proof.
  induction d as [| [k' v'] d IH]; cbn; intros H; [reflexivity |].
  destruct (String.eqb k k') eqn:E.
  - apply String.eqb_eq in E. subst. tauto.
  - rewrite IH by tauto. reflexivity.
Qed.

Lemma extra_outputs_spec C i items :
  forall acc d,
  NoDup (dict_keys acc ++ dict_keys items) ->
  extra_outputs C items i acc = Ok d ->
  exists new, d = acc ++ new /\ Forall2 (wraps_row i) (auxiliary_columns C items) new.
Proof.
  induction items as [| [k v] items IH]; intros acc d ND H; cbn [extra_outputs] in H.
  - inversion H; subst. exists []. rewrite app_nil_r. split; [reflexivity | constructor].
  - unfold auxiliary_columns. cbn [filter fst]. fold (auxiliary_columns C items).
    cbn [dict_keys map fst] in ND. fold (dict_keys items) in ND.
    destruct (str_in k (SCHEMA C)); cbn [negb].
    + apply IH; [| exact H]. eapply NoDup_remove_1; exact ND.
    + destruct (index v i) as [x |] eqn:Ex; cbn [rbind] in H; [| discriminate].
      assert (Hk : ~ In k (dict_keys acc)).
      { apply NoDup_remove_2 in ND. intros Hc. apply ND, in_or_app. now left. }
      rewrite (dict_set_fresh acc k [x] Hk) in H.
      apply IH in H.
      * destruct H as (new & -> & Hf). exists ((k, [x]) :: new).
        rewrite <- app_assoc. split; [reflexivity |].
        constructor; [| exact Hf]. split; [reflexivity |].
        exists x. split; [| reflexivity]. cbn. unfold index in Ex.
        destruct (nth_error v i); congruence.
      * unfold dict_keys in *. rewrite map_app. cbn [map fst]. rewrite <- app_assoc.
        exact ND.
Qed.

(** X1: in every episode [_map_to_episodes] returns in single-agent mode the
    agent id is [None] and the lookback buffer empty; the terminated flag is
    read from the terminated-flag column, and from the legacy [dones] column
    only when that one is absent; the truncated flag and the second info
    default to [False] and to the empty dict when their columns are absent. *)
Theorem returned_episode_optional_columns X batch episodes i e :
  let C := Columns X in
  _map_to_episodes X false batch = Ok [("episodes", episodes)] ->
  nth_error episodes i = Some e ->
  agent_id e = VNone /\
  len_lookback_buffer e = 0%Z /\
  cell batch (if dict_contains (TERMINATEDS C) batch then TERMINATEDS C else "dones") i
    = Some (terminated e) /\
  (if dict_contains (TRUNCATEDS C) batch
   then cell batch (TRUNCATEDS C) i = Some (truncated e)
   else truncated e = VBool false) /\
  (exists info, infos e = [VDict []; info] /\
     if dict_contains (INFOS C) batch
     then cell batch (INFOS C) i = Some info
     else info = VDict []).
Proof.
  intros C Hm Hi.
  destruct (map_to_episodes_single_row X batch episodes i e Hm Hi) as (obs & _ & Hs).
  pose proof (single_agent_episode_shape _ _ _ _ _ _ Hs) as (_ & Ha & _ & _ & _ & _ & Hl).
  pose proof (single_agent_episode_optional _ _ _ _ _ _ Hs) as (Ht & Htr & Hinfo & _).
  auto.
Qed.

(** X2: the auxiliary outputs of the episode of row [i] are the batch's
    columns outside [SCHEMA], in the batch's order, each holding the one-element
    list of its value at row [i]; no reserved column is among them. *)
Theorem returned_episode_auxiliary_outputs X batch episodes i e :
  NoDup (dict_keys batch) ->
  _map_to_episodes X false batch = Ok [("episodes", episodes)] ->
  nth_error episodes i = Some e ->
  Forall2 (wraps_row i) (auxiliary_columns (Columns X) batch) (extra_model_outputs e).
Proof.
  intros ND Hm Hi.
  destruct (map_to_episodes_single_row X batch episodes i e Hm Hi) as (obs & _ & Hs).
  pose proof (single_agent_episode_optional _ _ _ _ _ _ Hs) as (_ & _ & _ & He).
  apply extra_outputs_spec in He; [| exact ND].
  destruct He as (new & -> & Hf). exact Hf.
Qed.

Lemma episodes_loop_first_failure X batch rows :
  forall i ep acc k obs err,
  nth_error rows k = Some obs ->
  (forall j o, j < k -> nth_error rows j = Some o ->
     exists e, single_agent_episode X batch (i + j) o VNone = Ok e) ->
  single_agent_episode X batch (i + k) obs VNone = Err err ->
  episodes_loop X false batch rows i ep acc = Err err.
Proof.
  induction rows as [| o rows IH]; intros i ep acc k obs err Hk Hbefore Hfail.
  - destruct k; discriminate.
  - cbn [episodes_loop]. unfold loop_body. cbn [row_agent_id rbind].
    destruct k as [| k]; cbn in Hk.
    + inversion Hk; subst. rewrite Nat.add_0_r in Hfail. rewrite Hfail. reflexivity.
    + destruct (Hbefore 0 o) as (e & He); [lia | reflexivity |].
      rewrite Nat.add_0_r in He. rewrite He. cbn [rbind].
      apply (IH (S i) (Some e) (acc ++ [e]) k obs err Hk).
      * intros j o' Hj Ho'. rewrite Nat.add_succ_comm. apply Hbefore; [lia | exact Ho'].
      * rewrite Nat.add_succ_comm. exact Hfail.
Qed.

(** X3: the conversion is all or nothing: when the rows before row [k] are
    converted and the constructor call of row [k] raises, [_map_to_episodes]
    raises that exception and returns no episode of the earlier rows. *)
Theorem first_failing_row_fails_the_batch X batch k obs err :
  cell batch "obs" k = Some obs ->
  (forall j o, j < k -> cell batch "obs" j = Some o ->
     exists e, single_agent_episode X batch j o VNone = Ok e) ->
  single_agent_episode X batch k obs VNone = Err err ->
  _map_to_episodes X false batch = Err err.
Proof.
  unfold cell, _map_to_episodes. intros Hk Hbefore Hfail.
  destruct (dict_get batch "obs") as [col |]; [| discriminate]. cbn [rbind].
  rewrite (episodes_loop_first_failure X batch col 0 None [] k obs err); auto.
Qed.

Lemma multi_agent_loop_body X batch i obs r :
  loop_body X true batch i obs None = Ok r -> r = None.
Proof.
  unfold loop_body. intros H. inv_bind H. now inversion H.
Qed.

(** X4: in multi-agent mode [_map_to_episodes] never returns an episode: it
    returns only on a batch without rows, and on a batch with a row (and
    columns of equal length) the append of the never-assigned local
    [episode] raises [UnboundLocalError]. *)
Theorem multi_agent_mode_builds_no_episode X batch :
  (forall out, _map_to_episodes X true batch = Ok out ->
     out = [("episodes", [])] /\ num_rows batch = 0) /\
  (0 < num_rows batch -> rectangular batch = true ->
   _map_to_episodes X true batch = Err (UnboundLocalError "episode")).
Proof.
  split.
  - intros out H. unfold _map_to_episodes in H. inv_bind H. inversion H; subst; clear H.
    unfold num_rows. rewrite E. destruct a as [| obs rest]; cbn in E0.
    + inversion E0. auto.
    + destruct (loop_body X true batch 0 obs None) as [r |] eqn:El;
        cbn [rbind] in E0; [| discriminate].
      apply multi_agent_loop_body in El. subst r. discriminate.
  - intros Hrows R. unfold _map_to_episodes, num_rows in *.
    destruct (dict_get batch "obs") as [col |] eqn:Eo; [| cbn in Hrows; lia].
    cbn [rbind]. destruct col as [| obs rest]; [cbn in Hrows; lia |].
    assert (Hn : 0 < num_rows batch) by (unfold num_rows; rewrite Eo; exact Hrows).
    cbn [episodes_loop]. unfold loop_body, row_agent_id.
    destruct (optional_cell batch (AGENT_ID (Columns X)) 0 VNone R Hn) as (x & Hx).
    destruct (dict_contains (AGENT_ID (Columns X)) batch).
    + rewrite Hx. reflexivity.
    + destruct (optional_cell batch "agent_index" 0 VNone R Hn) as (y & Hy).
      destruct (dict_contains "agent_index" batch); [rewrite Hy |]; reflexivity.
Qed.

(** ** The transform call *)

Lemma dict_map_values_fresh {A B} (f : A -> B) (d : dict A) :
  NoDup (dict_keys d) ->
  dict_map_values f d = map (fun kv => (fst kv, f (snd kv))) d.
Proof.
  unfold dict_map_values. intros ND.
  assert (H : forall acc : dict B,
            NoDup (dict_keys acc ++ dict_keys d) ->
            fold_left (fun acc kv => dict_set acc (fst kv) (f (snd kv))) d acc =
            acc ++ map (fun kv => (fst kv, f (snd kv))) d).
  { clear ND. induction d as [| [k v] d IH]; intros acc ND; cbn [fold_left map fst snd].
    - now rewrite app_nil_r.
    - cbn [dict_keys map fst] in ND. fold (dict_keys d) in ND.
      rewrite dict_set_fresh.
      + rewrite IH.
        * now rewrite <- app_assoc.
        * unfold dict_keys in *. rewrite map_app. cbn [map fst]. rewrite <- app_assoc.
          exact ND.
      + apply NoDup_remove_2 in ND. intros Hc. apply ND, in_or_app. now left. }
  apply (H []). exact ND.
Qed.

Lemma dict_get_map_values {A B} (f : A -> B) (d : dict A) k :
  dict_get (map (fun kv => (fst kv, f (snd kv))) d) k =
  (v <- dict_get d k ;; Ok (f v)).
Proof.
  induction d as [| [k' v'] d IH]; cbn; [reflexivity |].
  destruct (String.eqb k k'); [reflexivity | exact IH].
Qed.

Lemma dict_keys_map_values {A B} (f : A -> B) (d : dict A) :
  dict_keys (map (fun kv => (fst kv, f (snd kv))) d) = dict_keys d.
Proof.
  unfold dict_keys. rewrite map_map. reflexivity.
Qed.

(** X5: when the conversion and the connector return, [__call__] returns one
    batch whose step count is the number of rows and whose sub-batches are
    the connector's per-module data, wrapped and otherwise unchanged; with no
    (or an empty) policy they are all of them, in the connector's order. *)
Theorem call_module_data_comes_from_connector X self batch episodes d :
  _map_to_episodes X (_is_multi_agent self) batch = Ok [("episodes", episodes)] ->
  _learner_connector self (_module self) episodes = Ok d ->
  NoDup (dict_keys d) ->
  exists mab,
    OfflinePreLearner__call__ X self batch = Ok [("batch", [mab])] /\
    count mab = Z.of_nat (num_rows batch) /\
    (forall mid sb, dict_get (policy_batches mab) mid = Ok sb ->
       exists md, dict_get d mid = Ok md /\ sb = MkSampleBatch md) /\
    (policies_falsy (_policies_to_train self) = true ->
     policy_batches mab = map wrap_module_data d).
Proof.
  intros Hm Hc ND. unfold OfflinePreLearner__call__. rewrite Hm. cbn [rbind].
  change (dict_get [("episodes", episodes)] "episodes") with (Ok episodes).
  cbn [rbind]. rewrite Hc. cbn [rbind]. cbv zeta.
  rewrite (dict_map_values_fresh MkSampleBatch d ND).
  fold wrap_module_data.
  set (mab := {| policy_batches := map wrap_module_data d;
                 count := sum_env_steps episodes |}).
  assert (NDm : NoDup (dict_keys (policy_batches mab))).
  { subst mab. cbn [policy_batches]. unfold wrap_module_data.
    rewrite (dict_keys_map_values MkSampleBatch d). exact ND. }
  destruct (remove_untrained_inv self (dict_keys (policy_batches mab)) mab NDm NDm
              (fun k H => H)) as (out & Hout & Hcount & _ & Hsub & _).
  rewrite Hout. cbn [rbind]. exists out. split; [reflexivity |].
  destruct (map_to_episodes_returns _ _ _ _ Hm) as (eps & Heq & Hlen & Hf).
  inversion Heq; subst eps.
  split; [| split].
  - rewrite Hcount. cbn. rewrite sum_env_steps_rows by exact Hf. now rewrite Hlen.
  - intros mid sb Hg.
    assert (Hin : In mid (dict_keys (policy_batches out))).
    { apply dict_contains_keys. rewrite dict_contains_get, Hg. reflexivity. }
    destruct (Hsub mid Hin) as (_ & Heq'). rewrite Heq' in Hg. cbn in Hg.
    unfold wrap_module_data in Hg. rewrite dict_get_map_values in Hg.
    destruct (dict_get d mid) as [md |]; [| discriminate]. cbn in Hg.
    exists md. split; [reflexivity | congruence].
  - intros Hfalsy. rewrite remove_untrained_all_kept in Hout.
    + inversion Hout. reflexivity.
    + intros k b. unfold _should_module_be_updated. now rewrite Hfalsy.
Qed.

(** X6: on a batch whose [obs] column is empty [__call__] reads no other
    column, in either mode: it hands the connector the empty episode list and
    returns a batch of zero steps. *)
Theorem call_on_batch_without_rows X self batch d :
  dict_get batch "obs" = Ok [] ->
  _learner_connector self (_module self) [] = Ok d ->
  exists mab,
    OfflinePreLearner__call__ X self batch = Ok [("batch", [mab])] /\
    count mab = 0%Z.
Proof.
  intros Ho Hc. unfold OfflinePreLearner__call__, _map_to_episodes. rewrite Ho.
  cbn [rbind episodes_loop].
  change (dict_get [("episodes", @nil SingleAgentEpisode)] "episodes") with
    (@Ok (list SingleAgentEpisode) []).
  cbn [rbind]. rewrite Hc. cbn [rbind]. cbv zeta.
  set (mab := {| policy_batches := dict_map_values MkSampleBatch d;
                 count := sum_env_steps [] |}).
  pose proof (dict_map_values_NoDup MkSampleBatch d) as NDm.
  destruct (remove_untrained_inv self (dict_keys (policy_batches mab)) mab NDm NDm
              (fun k H => H)) as (out & Hout & Hcount & _).
  rewrite Hout. cbn [rbind]. exists out. split; [reflexivity |].
  rewrite Hcount. reflexivity.
Qed.

(** ** Construction of a transform unit *)

Lemma select_index_inv {A} (l : list A) indices :
  forall l', select (index l) indices = Ok l' ->
  Forall2 (fun i x => nth_error l i = Some x) indices l'.
Proof.
  induction indices as [| i indices IH]; cbn [select]; intros l' H.
  - inversion H. constructor.
  - inv_bind H. inversion H; subst. constructor; [| now apply IH].
    unfold index in E. destruct (nth_error l i); congruence.
Qed.

Lemma choose_same_node_inv node ls hs :
  forall i slot l,
  choose_same_node node ls hs i slot = Ok (Some l) ->
  slot = Some l \/
  exists k, nth_error hs k = Some node /\ nth_error ls (i + k) = Some l.
Proof.
  induction hs as [| hint hs IH]; cbn [choose_same_node]; intros i slot l H.
  - inversion H. now left.
  - destruct (String.eqb hint node) eqn:E.
    + apply String.eqb_eq in E. subst hint.
      destruct (index ls i) as [l0 |] eqn:El; cbn [rbind] in H; [| discriminate].
      apply IH in H. destruct H as [H | (k & Hk & Hl)].
      * inversion H; subst. right. exists 0. rewrite Nat.add_0_r. cbn.
        unfold index in El. destruct (nth_error ls i); [| discriminate].
        split; [reflexivity | congruence].
      * right. exists (S k). rewrite <- Nat.add_succ_comm. cbn. auto.
    + apply IH in H. destruct H as [H | (k & Hk & Hl)]; [now left |].
      right. exists (S k). rewrite <- Nat.add_succ_comm. cbn. auto.
Qed.

Lemma bind_remote_learner_inv X handles hints w l w' :
  bind_remote_learner X (Listed handles) (Some hints) w = (Ok l, w') ->
  (exists i, nth_error hints i = Some (node_id w) /\ nth_error handles i = Some l) /\
  w' = {| node_id := node_id w;
          rng := snd (random_shuffle X (rng w) (seq 0 (List.length hints))) |}.
Proof.
  unfold bind_remote_learner, mbind, get_node_id, mlift, shuffle, mret, mraise.
  cbn [hints_list].
  destruct (random_shuffle X (rng w) (seq 0 (List.length hints))) as [indices g].
  cbn [snd].
  destruct (select (index hints) indices) as [hs' |] eqn:E1; [| discriminate].
  change (learner_getitem (Listed handles)) with (@index LearnerObj handles).
  destruct (select (index handles) indices) as [ls' |] eqn:E2; [| discriminate].
  cbn [node_id].
  destruct (choose_same_node (node_id w) ls' hs' 0 None) as [[l0 |] |] eqn:E3;
    try discriminate.
  cbn [truthy negb]. intros H. inversion H; subst; clear H. split; [| reflexivity].
  apply choose_same_node_inv in E3. destruct E3 as [E3 | (k & Hk & Hl)]; [discriminate |].
  cbn [Nat.add] in Hl.
  apply select_index_inv in E1. apply select_index_inv in E2.
  clear - E1 E2 Hk Hl. revert hs' ls' k E1 E2 Hk Hl.
  induction indices as [| i indices IH]; intros hs' ls' k E1 E2 Hk Hl.
  - inversion E1; subst. destruct k; discriminate.
  - inversion E1; subst. inversion E2; subst. destruct k as [| k]; cbn in Hk, Hl.
    + exists i. split; congruence.
    + eapply IH; eauto.
Qed.

Lemma remote_init_inv X cfg handles hints spec state w pl w' :
  OfflinePreLearner__init__ X cfg (Listed handles) (Some hints) spec state w
    = (Ok pl, w') ->
  (exists i, nth_error hints i = Some (node_id w) /\
             nth_error handles i = Some (_learner pl)) /\
  learner_is_remote pl = true /\
  (exists sp, spec = Some sp /\ _module pl = set_state (build sp) state) /\
  _policies_to_train pl = policies_to_train cfg /\
  _is_multi_agent pl = is_multi_agent cfg /\
  w' = {| node_id := node_id w;
          rng := snd (random_shuffle X (rng w) (seq 0 (List.length hints))) |}.
Proof.
  unfold OfflinePreLearner__init__. cbn [is_local_learner]. unfold mbind at 1 2.
  destruct (bind_remote_learner X (Listed handles) (Some hints) w) as [[l | e] w1] eqn:E;
    [| discriminate].
  apply bind_remote_learner_inv in E. destruct E as (Hi & ->).
  destruct spec as [sp |]; unfold mret, mraise; [| discriminate].
  intros H. inversion H; subst; clear H. cbn.
  repeat split; eauto.
Qed.

(** X7: whenever the constructor returns on a list of handles, the learner it
    bound is paired with a hint equal to the worker's node id, the module is
    built from the given specification with the given state, the policy and
    the multi-agent flag are the configuration's, and only the shuffle
    advanced the generator. *)
Theorem remote_constructor_binds_same_node_learner
    X cfg handles hints spec state w pl w' :
  OfflinePreLearner__init__ X cfg (Listed handles) (Some hints) spec state w
    = (Ok pl, w') ->
  (exists i, nth_error hints i = Some (node_id w) /\
             nth_error handles i = Some (_learner pl)) /\
  learner_is_remote pl = true /\
  (exists sp, spec = Some sp /\ _module pl = set_state (build sp) state) /\
  _policies_to_train pl = policies_to_train cfg /\
  _is_multi_agent pl = is_multi_agent cfg /\
  w' = {| node_id := node_id w;
          rng := snd (random_shuffle X (rng w) (seq 0 (List.length hints))) |}.
Proof.
  apply remote_init_inv.
Qed.

Lemma choose_same_node_last node ls hs l :
  forall i slot m,
  List.length hs + i <= List.length ls ->
  nth_error hs m = Some node ->
  nth_error ls (i + m) = Some l ->
  (forall k, m < k -> nth_error hs k <> Some node) ->
  choose_same_node node ls hs i slot = Ok (Some l).
Proof.
  induction hs as [| hint hs IH]; intros i slot m Hlen Hm Hl Hafter.
  - destruct m; discriminate.
  - cbn [choose_same_node]. cbn [List.length] in Hlen.
    destruct m as [| m]; cbn in Hm.
    + inversion Hm; subst hint. rewrite String.eqb_refl.
      rewrite Nat.add_0_r in Hl. unfold index. rewrite Hl. cbn [rbind].
      apply choose_same_node_none. intros Hin.
      apply In_nth_error in Hin. destruct Hin as (k & Hk).
      apply (Hafter (S k)); [lia | exact Hk].
    + assert (Hrest : forall slot', choose_same_node node ls hs (S i) slot' = Ok (Some l)).
      { intros slot'. apply (IH (S i) slot' m); [lia | exact Hm | |].
        - rewrite Nat.add_succ_comm. exact Hl.
        - intros k Hk. apply (Hafter (S k)). lia. }
      destruct (String.eqb hint node); [| apply Hrest].
      destruct (index_in_range ls i) as (x & -> & _); [lia |].
      cbn [rbind]. apply Hrest.
Qed.

(** X8: when several hints equal the worker's node id, the loop has no
    [break]: the handle bound is the one paired with the last matching hint
    in the shuffled order. *)
Theorem remote_constructor_last_match_wins
    X cfg handles hints sp state w before j after l :
  shuffle_permutes X ->
  List.length handles = List.length hints ->
  fst (random_shuffle X (rng w) (seq 0 (List.length hints))) = before ++ j :: after ->
  nth_error hints j = Some (node_id w) ->
  (forall p, In p after -> nth_error hints p <> Some (node_id w)) ->
  nth_error handles j = Some l ->
  exists pl w',
    OfflinePreLearner__init__ X cfg (Listed handles) (Some hints) (Some sp) state w
      = (Ok pl, w') /\
    _learner pl = l.
Proof.
  intros HP Hlen Hidx Hj Hafter Hl.
  pose proof (shuffled_indices_in_range X (rng w) (List.length hints) HP) as Hrange.
  unfold OfflinePreLearner__init__, bind_remote_learner, mbind, get_node_id, mlift,
    shuffle, mret, mraise. cbn [is_local_learner hints_list].
  destruct (random_shuffle X (rng w) (seq 0 (List.length hints))) as [indices g].
  cbn [fst snd node_id] in *. subst indices.
  destruct (select_index hints _ Hrange) as (hs' & -> & Hl1 & Hn1).
  rewrite <- Hlen in Hrange.
  destruct (select_index handles _ Hrange) as (ls' & Hs2 & Hl2 & Hn2).
  change (learner_getitem (Listed handles)) with (@index LearnerObj handles).
  rewrite Hs2.
  assert (Hat : nth_error (before ++ j :: after) (List.length before) = Some j).
  { rewrite nth_error_app2 by lia. now rewrite Nat.sub_diag. }
  rewrite (choose_same_node_last (node_id w) ls' hs' l 0 None (List.length before)).
  - cbn. eauto.
  - lia.
  - rewrite (Hn1 _ _ Hat). exact Hj.
  - cbn [Nat.add]. rewrite (Hn2 _ _ Hat). exact Hl.
  - intros k Hk Hc.
    destruct (nth_error (before ++ j :: after) k) as [p |] eqn:Ep.
    + rewrite (Hn1 _ _ Ep) in Hc. apply (Hafter p); [| exact Hc].
      rewrite nth_error_app2 in Ep by lia.
      destruct (k - List.length before) as [| q] eqn:Eq; [lia |].
      cbn in Ep. eapply nth_error_In; eauto.
    + apply nth_error_None in Ep.
      assert (k < List.length hs') by (apply nth_error_Some; congruence). lia.
Qed.

Lemma select_index_only_index_error {A} (l : list A) indices e :
  select (index l) indices = Err e -> e = IndexError.
Proof.
  induction indices as [| i indices IH]; cbn [select]; intros H; [discriminate |].
  unfold index in H at 1. destruct (nth_error l i); cbn [rbind] in H.
  - destruct (select (index l) indices); cbn [rbind] in H; [discriminate |].
    inversion H; subst. now apply IH.
  - now inversion H.
Qed.

Lemma select_index_out_of_range {A} (l : list A) indices i :
  In i indices -> List.length l <= i -> select (index l) indices = Err IndexError.
Proof.
  intros Hin Hi.
  destruct (select (index l) indices) as [l' |] eqn:E.
  - apply select_index_inv in E. exfalso. clear - E Hin Hi.
    induction E as [| i0 x idx l' Hx _ IH]; [contradiction |].
    destruct Hin as [-> | Hin]; [| auto].
    assert (i < List.length l) by (apply nth_error_Some; congruence). lia.
  - f_equal. eapply select_index_only_index_error; eauto.
Qed.

(** X9: with fewer handles than locality hints the shuffled indices run over
    the hints, and permuting the handles raises [IndexError], whether or not
    a hint matches. *)
Theorem remote_constructor_with_fewer_handles_raises
    X cfg handles hints spec state w :
  shuffle_permutes X ->
  List.length handles < List.length hints ->
  fst (OfflinePreLearner__init__ X cfg (Listed handles) (Some hints) spec state w)
    = Err IndexError.
Proof.
  intros HP Hlen.
  pose proof (shuffled_indices_in_range X (rng w) (List.length hints) HP) as Hrange.
  pose proof (HP (rng w) (seq 0 (List.length hints))) as Hperm.
  unfold OfflinePreLearner__init__, bind_remote_learner, mbind, get_node_id, mlift,
    shuffle, mret, mraise. cbn [is_local_learner hints_list].
  destruct (random_shuffle X (rng w) (seq 0 (List.length hints))) as [indices g].
  cbn [fst snd node_id] in *.
  destruct (select_index hints _ Hrange) as (hs' & -> & _).
  change (learner_getitem (Listed handles)) with (@index LearnerObj handles).
  rewrite (select_index_out_of_range handles indices (List.length hints - 1)).
  - reflexivity.
  - apply (Permutation_in _ (Permutation_sym Hperm)). apply in_seq. lia.
  - lia.
Qed.

(** X10: without a module specification (the default) the constructor never
    returns for anything but a local [Learner]. *)
Theorem remote_constructor_needs_module_spec X cfg learner hints state w :
  is_local_learner learner = None ->
  exists e,
    fst (OfflinePreLearner__init__ X cfg learner hints None state w) = Err e.
Proof.
  intros Hl. unfold OfflinePreLearner__init__.
  destruct learner as [| [m | a] | ls]; cbn [is_local_learner] in *;
    try discriminate; unfold mbind at 1 2.
  - destruct (bind_remote_learner X NoLearner hints w) as [[l | e] w1]; cbn; eauto.
  - destruct (bind_remote_learner X (Single (ActorHandle a)) hints w)
      as [[l | e] w1]; cbn; eauto.
  - destruct (bind_remote_learner X (Listed ls) hints w) as [[l | e] w1]; cbn; eauto.
Qed.

(** ** Sampling modes *)

Lemma sample_single_build X self tr n ri ns ds l rest :
  ri && (1 <? ns)%Z = false ->
  ri = false \/ batch_iterator self = None ->
  data self = Some ds ->
  learner_handles self = Some (l :: rest) ->
  let it := single_mode_iterator self ds l n in
  let tr1 := tr ++ [EvMapBatches (single_mode_kwargs self l) 2] in
  sample X n ri ns {| self_ := self; trace := tr |} =
  if ri then (Ok (OneIterator (Some it)), {| self_ := with_iterator self it; trace := tr1 |})
  else (out <- iter_next X tr1 it ;;
        batches <- dict_get out "batch" ;;
        b <- index batches 0 ;;
        Ok (OneBatch b),
        {| self_ := with_iterator self it; trace := tr1 ++ [EvNext it] |}).
Proof.
  intros Hmode Hcache Hd Hh.
  destruct self as [c ma p m k d bi lh hs sp].
  cbn [data learner_handles batch_iterator] in Hcache, Hd, Hh. subst d hs.
  intros it tr1.
  assert (Hcond : negb ri || (ri && (ns <=? 1)%Z
                              && negb (iterator_truthy bi)) = true).
  { destruct ri; cbn [negb orb andb] in *; [| reflexivity].
    destruct Hcache as [Hc | Hc]; [discriminate |]. rewrite Hc. cbn.
    rewrite andb_true_r. apply Z.leb_le. apply Z.ltb_ge. exact Hmode. }
  unfold sample, mbind at 1, get_self. cbn [self_ batch_iterator]. rewrite Hcond.
  unfold attr_data, learner_handle_0, map_batches, emit, set_batch_iterator, mmodify,
    mbind, mret, get_self, mlift, next_of_iterator.
  cbn [self_ trace data learner_handles index nth_error batch_iterator].
  destruct ri; cbn [andb] in *.
  - rewrite Hmode. reflexivity.
  - subst it tr1. unfold single_mode_iterator, single_mode_kwargs, with_iterator.
    cbn.
    match goal with
    | |- context [iter_next X ?t ?i] => destruct (iter_next X t i) as [out |]
    end; cbn; [| reflexivity].
    destruct (dict_get out "batch") as [batches |]; cbn; [| reflexivity].
    destruct batches; reflexivity.
Qed.

Lemma sample_cached_iterator X self tr n ns it :
  batch_iterator self = Some it ->
  (ns <= 1)%Z ->
  sample X n true ns {| self_ := self; trace := tr |} =
  (Ok (OneIterator (Some it)), {| self_ := self; trace := tr |}).
Proof.
  intros Hc Hns. unfold sample, mbind, get_self, mret. cbn [self_ negb orb andb].
  rewrite Hc. cbn [iterator_truthy negb]. rewrite andb_false_r.
  assert (E : (1 <? ns)%Z = false) by (apply Z.ltb_ge; exact Hns).
  cbn [self_]. rewrite E, Hc. reflexivity.
Qed.

(** X11: the first single-shard iterator call builds the iterator for its
    batch size and caches it; a later single-shard call returns that same
    iterator, whatever batch size it asks for, and issues nothing. *)
Theorem single_shard_iterator_is_built_once X self tr n n' ns ns' ds l rest :
  (ns <= 1)%Z -> (ns' <= 1)%Z ->
  batch_iterator self = None ->
  data self = Some ds ->
  learner_handles self = Some (l :: rest) ->
  let it := single_mode_iterator self ds l n in
  let w1 := {| self_ := with_iterator self it;
               trace := tr ++ [EvMapBatches (single_mode_kwargs self l) 2] |} in
  sample X n true ns {| self_ := self; trace := tr |} = (Ok (OneIterator (Some it)), w1) /\
  sample X n' true ns' w1 = (Ok (OneIterator (Some it)), w1).
Proof.
  intros Hns Hns' Hc Hd Hh it w1. split.
  - rewrite (sample_single_build X self tr n true ns ds l rest); auto.
    cbn [andb]. apply Z.ltb_ge. exact Hns.
  - apply sample_cached_iterator; [reflexivity | exact Hns'].
Qed.

(** X12: a single-batch call always builds a new iterator for its batch size,
    replacing a cached one, and returns the first batch of what the iterator
    yields under [batch] (or the exception of that lookup); a single-shard
    iterator call made afterwards returns the iterator this call left. *)
Theorem single_batch_sample_rebuilds_iterator X self tr n n' ns ns' ds l rest :
  (ns' <= 1)%Z ->
  data self = Some ds ->
  learner_handles self = Some (l :: rest) ->
  let it := single_mode_iterator self ds l n in
  let tr1 := tr ++ [EvMapBatches (single_mode_kwargs self l) 2] in
  let w1 := {| self_ := with_iterator self it; trace := tr1 ++ [EvNext it] |} in
  sample X n false ns {| self_ := self; trace := tr |} =
    (out <- iter_next X tr1 it ;;
     batches <- dict_get out "batch" ;;
     b <- index batches 0 ;;
     Ok (OneBatch b), w1) /\
  sample X n' true ns' w1 = (Ok (OneIterator (Some it)), w1).
Proof.
  intros Hns' Hd Hh it tr1 w1. split.
  - rewrite (sample_single_build X self tr n false ns ds l rest); auto.
  - apply sample_cached_iterator; [reflexivity | exact Hns'].
Qed.

(** X13: the transform units of the single-batch and single-shard modes get
    the first learner and no locality hints: such a unit is constructed, on
    any worker, around a local [Learner] and its module, and raises
    [TypeError] for a remote handle. *)
Theorem single_mode_units_need_local_learner X self tr n ri ns ds l rest wk :
  ri && (1 <? ns)%Z = false ->
  ri = false \/ batch_iterator self = None ->
  data self = Some ds ->
  learner_handles self = Some (l :: rest) ->
  let kw := single_mode_kwargs self l in
  batch_iterator (self_ (snd (sample X n ri ns {| self_ := self; trace := tr |}))) =
    Some (IterBatches (MapBatches ds kw 2 n false) n 2 (n * 10)) /\
  match l with
  | Learner m =>
      exists pl, construct X kw wk = (Ok pl, wk) /\
                 _learner pl = l /\ _module pl = m /\ learner_is_remote pl = false
  | ActorHandle _ => construct X kw wk = (Err TypeError, wk)
  end.
Proof.
  intros Hmode Hcache Hd Hh kw. split.
  - rewrite (sample_single_build X self tr n ri ns ds l rest); auto.
    destruct ri; reflexivity.
  - destruct l as [m | a]; unfold construct; cbn.
    + eexists. split; [reflexivity |]. cbn. auto.
    + reflexivity.
Qed.

(** X14: a facade to which no learner handles were assigned after
    construction cannot sample: every call raises, [TypeError] for the
    subscript of [None] (or [AttributeError] when the load had failed and the
    mode reads [data] first), issues no event and changes nothing. *)
Theorem fresh_facade_cannot_sample X cfg tr n ri ns :
  let self := OfflineData__init__ X cfg in
  sample X n ri ns {| self_ := self; trace := tr |} =
  (Err (if ri && (1 <? ns)%Z then TypeError
        else match data self with
             | Some _ => TypeError
             | None => AttributeError "data"
             end),
   {| self_ := self; trace := tr |}).
Proof.
  intros self. unfold sample, mbind at 1, get_self. cbn [self_].
  change (batch_iterator self) with (@None DataIterator).
  cbn [iterator_truthy negb]. rewrite andb_true_r.
  unfold attr_data, learner_handle_0, mbind, mret, get_self, get_state_remote.
  destruct ri; cbn [negb orb andb].
  - destruct (1 <? ns)%Z eqn:E.
    + assert (E' : (ns <=? 1)%Z = false) by (apply Z.leb_gt, Z.ltb_lt; exact E).
      rewrite E'. cbn [self_]. reflexivity.
    + assert (E' : (ns <=? 1)%Z = true) by (apply Z.leb_le, Z.ltb_ge; exact E).
      rewrite E'. cbn [self_]. destruct (data self); reflexivity.
  - cbn [self_]. destruct (data self); reflexivity.
Qed.

(** X15: [sample] assigns nothing but [batch_iterator]: configuration, path,
    reader arguments, dataset, learner handles, locality hints and module
    specification are what they were, the trace is only extended, and a
    multi-shard call leaves the whole facade unchanged. *)
Theorem sample_preserves_facade X n ri ns w :
  let w' := snd (sample X n ri ns w) in
  od_config (self_ w') = od_config (self_ w) /\
  path (self_ w') = path (self_ w) /\
  data_read_method_kwargs (self_ w') = data_read_method_kwargs (self_ w) /\
  data (self_ w') = data (self_ w) /\
  learner_handles (self_ w') = learner_handles (self_ w) /\
  locality_hints (self_ w') = locality_hints (self_ w) /\
  module_spec (self_ w') = module_spec (self_ w) /\
  (exists new, trace w' = trace w ++ new) /\
  (ri && (1 <? ns)%Z = true -> self_ w' = self_ w).
Proof.
  destruct w as [[c ma p m k d bi lh hs sp] tr].
  unfold sample, attr_data, learner_handle_0, map_batches, emit, set_batch_iterator,
    mmodify, mbind, mret, mraise, get_self, mlift, next_of_iterator, get_state_remote.
  cbn.
  destruct ri; cbn.
  - destruct (1 <? ns)%Z eqn:E1.
    + assert (E' : (ns <=? 1)%Z = false) by (apply Z.leb_gt, Z.ltb_lt; exact E1).
      rewrite E'. cbn.
      destruct hs as [[| [lm | a] rest] |]; cbn;
        try (repeat split; auto; exists []; now rewrite app_nil_r).
      destruct (remote_get_state X tr a (COMPONENT_RL_MODULE X)); cbn.
      * destruct d; cbn; repeat split; auto; eexists;
          try rewrite <- app_assoc; reflexivity.
      * repeat split; auto; eexists; reflexivity.
    + assert (E' : (ns <=? 1)%Z = true) by (apply Z.leb_le, Z.ltb_ge; exact E1).
      rewrite E'. cbn. destruct bi; cbn.
      * repeat split; auto; try discriminate.
        exists []. now rewrite app_nil_r.
      * destruct d; cbn; [| repeat split; auto; try discriminate;
                             exists []; now rewrite app_nil_r].
        destruct hs as [[| l rest] |]; cbn;
          try (repeat split; auto; try discriminate; exists []; now rewrite app_nil_r).
        repeat split; auto; try discriminate. eexists; reflexivity.
  - destruct d; cbn; [| repeat split; auto; try discriminate;
                         exists []; now rewrite app_nil_r].
    destruct hs as [[| l rest] |]; cbn;
      try (repeat split; auto; try discriminate; exists []; now rewrite app_nil_r).
    match goal with
    | |- context [iter_next X ?t ?i] => destruct (iter_next X t i) as [out |]
    end; cbn.
    + destruct (dict_get out "batch") as [batches |]; cbn.
      * destruct batches; cbn; repeat split; auto; try discriminate;
          eexists; rewrite <- app_assoc; reflexivity.
      * repeat split; auto; try discriminate; eexists; rewrite <- app_assoc; reflexivity.
    + repeat split; auto; try discriminate; eexists; rewrite <- app_assoc; reflexivity.
Qed.

Lemma fetches_snoc tr ev :
  fetches (tr ++ [ev]) =
  fetches tr + match ev with EvGetState _ _ => 1 | _ => 0 end.
Proof.
  rewrite fetches_app. now destruct ev.
Qed.

(** X16: a [sample] call fetches the module state exactly when it is a
    multi-shard call whose first learner is a remote handle, and then once;
    the single-batch and single-shard modes never fetch. *)
Theorem sample_fetches_only_for_shards X n ri ns w :
  fetches (trace (snd (sample X n ri ns w))) =
  fetches (trace w) +
  (if ri && (1 <? ns)%Z
   then match learner_handles (self_ w) with
        | Some (ActorHandle _ :: _) => 1
        | _ => 0
        end
   else 0).
Proof.
  pose proof fetches_snoc as Hs. remember fetches as F eqn:HF. clear HF.
  destruct w as [[c ma p m k d bi lh hs sp] tr].
  unfold sample, attr_data, learner_handle_0, map_batches, emit, set_batch_iterator,
    mmodify, mbind, mret, mraise, get_self, mlift, next_of_iterator, get_state_remote.
  cbn.
  destruct ri; cbn.
  - destruct (1 <? ns)%Z eqn:E1.
    + assert (E' : (ns <=? 1)%Z = false) by (apply Z.leb_gt, Z.ltb_lt; exact E1).
      rewrite E'. cbn.
      destruct hs as [[| [lm | a] rest] |]; cbn; try lia.
      destruct (remote_get_state X tr a (COMPONENT_RL_MODULE X)); cbn.
      * destruct d; cbn; rewrite ?Hs; lia.
      * rewrite ?Hs; lia.
    + assert (E' : (ns <=? 1)%Z = true) by (apply Z.leb_le, Z.ltb_ge; exact E1).
      rewrite E'. cbn. destruct bi; cbn; [lia |].
      destruct d; cbn; [| lia].
      destruct hs as [[| l rest] |]; cbn; rewrite ?Hs; lia.
  - destruct d; cbn; [| lia].
    destruct hs as [[| l rest] |]; cbn; try lia.
    match goal with
    | |- context [iter_next X ?t ?i] => destruct (iter_next X t i) as [out |]
    end; cbn.
    + destruct (dict_get out "batch") as [batches |]; cbn.
      * destruct batches; cbn; rewrite ?Hs; lia.
      * rewrite ?Hs; lia.
    + rewrite ?Hs; lia.
Qed.

(** X17: a multi-shard call fails before anything is issued when the
    learner handles are unset ([TypeError]), empty ([IndexError]) or start
    with a local [Learner] ([AttributeError]); when the fetch raises, that
    exception is passed on and no map stage is set up. *)
Theorem multi_shard_sample_needs_remote_first_handle X n ns self tr :
  (1 < ns)%Z ->
  let w := {| self_ := self; trace := tr |} in
  match learner_handles self with
  | None => sample X n true ns w = (Err TypeError, w)
  | Some [] => sample X n true ns w = (Err IndexError, w)
  | Some (Learner _ :: _) => sample X n true ns w = (Err (AttributeError "remote"), w)
  | Some (ActorHandle a :: _) =>
      forall e, remote_get_state X tr a (COMPONENT_RL_MODULE X) = Err e ->
      sample X n true ns w =
      (Err e, {| self_ := self;
                 trace := tr ++ [EvGetState (ActorHandle a) (COMPONENT_RL_MODULE X)] |})
  end.
Proof.
  intros Hns w. subst w.
  assert (E1 : (1 <? ns)%Z = true) by (apply Z.ltb_lt; exact Hns).
  assert (E2 : (ns <=? 1)%Z = false) by (apply Z.leb_gt; exact Hns).
  destruct self as [c ma p m k d bi lh hs sp].
  unfold sample, attr_data, learner_handle_0, map_batches, emit, set_batch_iterator,
    mmodify, mbind, mret, mraise, get_self, mlift, next_of_iterator, get_state_remote.
  cbn. rewrite E1, E2. cbn.
  destruct hs as [[| [lm | a] rest] |]; cbn; try reflexivity.
  intros e He. rewrite He. reflexivity.
Qed.

Lemma dict_get_set {A} (d : dict A) k v k' :
  dict_get (dict_set d k v) k' = if String.eqb k' k then Ok v else dict_get d k'.
Proof.
  induction d as [| [k0 v0] d IH]; cbn.
  - destruct (String.eqb k' k); reflexivity.
  - destruct (String.eqb k k0) eqn:E; cbn.
    + apply String.eqb_eq in E. subst k0. destruct (String.eqb k' k); reflexivity.
    + destruct (String.eqb k' k0) eqn:E'; [| exact IH].
      apply String.eqb_eq in E'. subst k0.
      rewrite String.eqb_sym, E. reflexivity.
Qed.

Lemma dict_union_get {A} (right : dict A) :
  forall left k,
  NoDup (dict_keys right) ->
  dict_get (dict_union left right) k =
  if dict_contains k right then dict_get right k else dict_get left k.
Proof.
  unfold dict_union.
  induction right as [| [k0 v0] right IH]; intros left k ND; cbn [fold_left]; [reflexivity |].
  inversion ND as [| ? ? Hnot ND']; subst.
  rewrite IH by exact ND'. cbn [fst snd]. rewrite dict_get_set.
  cbn [dict_contains existsb dict_get fst]. fold (dict_contains k right).
  destruct (String.eqb k k0) eqn:E; cbn [orb]; [| reflexivity].
  apply String.eqb_eq in E. subst k0.
  destruct (dict_contains k right) eqn:Ec; [| reflexivity].
  apply dict_contains_keys in Ec. contradiction.
Qed.

(** X18: the reader's keyword arguments are the configured ones, to which
    [override_num_blocks] is added only if it is not configured: twice the
    number of learners and at least two.  The dataset is what the reader
    returns for them. *)
Theorem read_kwargs_defaults_and_overrides X cfg :
  NoDup (dict_keys (input_read_method_kwargs cfg)) ->
  let self := OfflineData__init__ X cfg in
  let kwargs := data_read_method_kwargs self in
  let user := input_read_method_kwargs cfg in
  (forall k, dict_contains k user = true -> dict_get kwargs k = dict_get user k) /\
  (dict_contains "override_num_blocks" user = false ->
   exists blocks,
     dict_get kwargs "override_num_blocks" = Ok (VInt blocks) /\
     (2 <= blocks)%Z /\ (num_learners cfg * 2 <= blocks)%Z /\
     (blocks = 2%Z \/ blocks = (num_learners cfg * 2)%Z)) /\
  (forall k, k <> "override_num_blocks" -> dict_contains k user = false ->
     dict_get kwargs k = Err (KeyError k)) /\
  data self = match ray_data_read X (input_read_method cfg) (path self) kwargs with
              | Ok ds => Some ds
              | Err _ => None
              end.
Proof.
  intros ND self kwargs user.
  assert (Hget : forall k, dict_get kwargs k =
            if dict_contains k user then dict_get user k
            else dict_get (default_read_method_kwargs cfg) k).
  { intros k. subst kwargs self. cbn [OfflineData__init__ data_read_method_kwargs].
    apply dict_union_get. exact ND. }
  split; [| split; [| split]].
  - intros k Hk. rewrite Hget, Hk. reflexivity.
  - intros Hk. rewrite Hget, Hk. cbn.
    exists (Z.max (num_learners cfg * 2) 2). split; [reflexivity |]. lia.
  - intros k Hne Hk. rewrite Hget, Hk. unfold default_read_method_kwargs.
    cbn [dict_get]. apply String.eqb_neq in Hne. rewrite Hne. reflexivity.
  - reflexivity.
Qed.

(** X19: whatever split a [sample] call returns, its map stage has
    [num_shards] as concurrency and every unit constructed from its
    arguments holds a module with the state fetched by this call and is bound
    to a handle of the facade whose hint is the worker's node id. *)
Theorem multi_shard_units_carry_fetched_state X n ns w split w1 :
  sample X n true ns w = (Ok (Shards split), w1) ->
  exists a rest ds state kw,
    learner_handles (self_ w) = Some (ActorHandle a :: rest) /\
    data (self_ w) = Some ds /\
    remote_get_state X (trace w) a (COMPONENT_RL_MODULE X) = Ok state /\
    split = StreamingSplit (MapBatches ds kw ns n true) ns false
              (locality_hints (self_ w)) /\
    forall wk pl wk',
      construct X kw wk = (Ok pl, wk') ->
      module_state_of (_module pl) = Some state /\
      exists hints i,
        locality_hints (self_ w) = Some hints /\
        nth_error hints i = Some (node_id wk) /\
        nth_error (ActorHandle a :: rest) i = Some (_learner pl).
Proof.
  destruct w as [[c ma p m k d bi lh hs sp] tr].
  unfold sample, attr_data, learner_handle_0, map_batches, emit, set_batch_iterator,
    mmodify, mbind, mret, mraise, get_self, mlift, next_of_iterator, get_state_remote.
  cbn.
  destruct (1 <? ns)%Z eqn:E1.
  - assert (E' : (ns <=? 1)%Z = false) by (apply Z.leb_gt, Z.ltb_lt; exact E1).
    rewrite E'. cbn.
    destruct hs as [[| [lm | a] rest] |]; cbn; try discriminate.
    destruct (remote_get_state X tr a (COMPONENT_RL_MODULE X)) as [state |] eqn:Es;
      cbn; [| discriminate].
    destruct d as [ds |]; cbn; [| discriminate].
    intros H. inversion H; subst; clear H.
    eexists a, rest, ds, state, _.
    do 2 (split; [reflexivity |]). split; [exact Es |]. split; [reflexivity |].
    intros wk pl wk' H. unfold construct in H. cbn in H.
    destruct lh as [hints |].
    + apply remote_init_inv in H.
      destruct H as ((i & Hi & Hl) & _ & (sp0 & _ & ->) & _).
      split; [reflexivity |]. exists hints, i. auto.
    + exfalso. unfold OfflinePreLearner__init__, bind_remote_learner, mbind,
        get_node_id, mlift in H. cbn in H. discriminate.
  - assert (E' : (ns <=? 1)%Z = true) by (apply Z.leb_le, Z.ltb_ge; exact E1).
    rewrite E'. cbn. destruct bi; cbn; [discriminate |].
    destruct d; cbn; [| discriminate].
    destruct hs as [[| l rest] |]; cbn; discriminate.
Qed.

(** ** The further properties at concrete inputs *)

(** X1 at the second row of [small_batch]. *)
Lemma returned_episode_optional_columns_witness :
  exists e,
    nth_error small_batch_episodes 1 = Some e /\
    agent_id e = VNone /\
    cell small_batch "dones" 1 = Some (terminated e) /\
    truncated e = VBool false.
Proof.
  eexists. split; [reflexivity |].
  destruct (returned_episode_optional_columns local_collaborators small_batch
              small_batch_episodes 1 _ eq_refl eq_refl)
    as (Ha & _ & Ht & Htr & _).
  split; [exact Ha |]. split; [exact Ht | exact Htr].
Defined.

Lemma small_batch_keys_NoDup : NoDup (dict_keys small_batch).
Proof.
  cbn. repeat constructor; cbn; intuition discriminate.
Qed.

(** X2 at the second row of [small_batch]. *)
Lemma returned_episode_auxiliary_outputs_witness :
  exists e,
    nth_error small_batch_episodes 1 = Some e /\
    Forall2 (wraps_row 1) (auxiliary_columns rllib_columns small_batch)
            (extra_model_outputs e).
Proof.
  eexists. split; [reflexivity |].
  apply (returned_episode_auxiliary_outputs local_collaborators small_batch
           small_batch_episodes 1 _ small_batch_keys_NoDup eq_refl eq_refl).
Defined.

(** X3 at [ragged_batch], whose second row has no episode id. *)
Lemma first_failing_row_fails_the_batch_witness :
  _map_to_episodes local_collaborators false ragged_batch = Err IndexError.
Proof.
  apply (first_failing_row_fails_the_batch local_collaborators ragged_batch 1 (VInt 11)).
  - reflexivity.
  - intros [| j] o Hj Ho; [| lia]. inversion Ho; subst. eexists. reflexivity.
  - reflexivity.
Defined.

(** X4 at [full_batch]. *)
Lemma multi_agent_mode_builds_no_episode_witness :
  _map_to_episodes local_collaborators true full_batch =
  Err (UnboundLocalError "episode").
Proof.
  apply (proj2 (multi_agent_mode_builds_no_episode local_collaborators full_batch)).
  - cbn. lia.
  - reflexivity.
Defined.

(** X5 at [small_batch] and a unit that updates all of two modules. *)
Lemma call_module_data_comes_from_connector_witness :
  let d := map (fun mid => (mid, [("eps_id", map id_ small_batch_episodes)]))
               ["A"; "B"] in
  exists mab,
    OfflinePreLearner__call__ local_collaborators
      (local_prelearner PolicyNone ["A"; "B"]) small_batch = Ok [("batch", [mab])] /\
    count mab = 2%Z /\
    policy_batches mab = map wrap_module_data d.
Proof.
  intros d.
  destruct (call_module_data_comes_from_connector local_collaborators
              (local_prelearner PolicyNone ["A"; "B"]) small_batch
              small_batch_episodes d eq_refl eq_refl)
    as (mab & Hcall & Hcount & _ & Hall).
  - cbn. repeat constructor; cbn; intuition discriminate.
  - exists mab. split; [exact Hcall |]. split; [exact Hcount |].
    apply Hall. reflexivity.
Defined.

(** X6 at a batch that has only an empty [obs] column, in multi-agent mode. *)
Lemma call_on_batch_without_rows_witness :
  let cfg := config_of "data" PolicyNone ["A"] in
  let m := build {| spec_module_ids := ["A"] |} in
  let self := {| config := cfg; _learner := Learner m; learner_is_remote := false;
                 _module := m; _learner_connector := build_learner_connector cfg;
                 _policies_to_train := PolicyNone; _is_multi_agent := true;
                 iter_since_last_module_update := 0 |} in
  exists mab,
    OfflinePreLearner__call__ local_collaborators self [("obs", [])] =
      Ok [("batch", [mab])] /\
    count mab = 0%Z.
Proof.
  intros cfg m self.
  apply (call_on_batch_without_rows local_collaborators self [("obs", [])]
           [("A", [("eps_id", [])])]); reflexivity.
Defined.

(** X7 at three handles, two of them on the worker's node. *)
Lemma remote_constructor_binds_same_node_learner_witness :
  let handles := [ActorHandle 0; ActorHandle 1; ActorHandle 2] in
  let hints := ["node-1"; "node-2"; "node-1"] in
  exists pl w',
    OfflinePreLearner__init__ local_collaborators (config_of "data" PolicyNone ["A"])
      (Listed handles) (Some hints) (Some {| spec_module_ids := ["A"] |})
      (Some (VInt 5)) {| node_id := "node-1"; rng := 0 |} = (Ok pl, w') /\
    (exists i, nth_error hints i = Some "node-1" /\
               nth_error handles i = Some (_learner pl)) /\
    module_state_of (_module pl) = Some (VInt 5).
Proof.
  intros handles hints.
  eexists. eexists. split; [reflexivity |].
  destruct (remote_constructor_binds_same_node_learner local_collaborators
              (config_of "data" PolicyNone ["A"]) handles hints
              (Some {| spec_module_ids := ["A"] |}) (Some (VInt 5))
              {| node_id := "node-1"; rng := 0 |} _ _ eq_refl)
    as (Hi & _ & (sp & _ & Hm) & _).
  split; [exact Hi |]. rewrite Hm. reflexivity.
Defined.

(** X8 at the same input: the shuffle yields [2; 1; 0], so the first handle
    is visited last. *)
Lemma remote_constructor_last_match_wins_witness :
  exists pl w',
    OfflinePreLearner__init__ local_collaborators (config_of "data" PolicyNone ["A"])
      (Listed [ActorHandle 0; ActorHandle 1; ActorHandle 2])
      (Some ["node-1"; "node-2"; "node-1"]) (Some {| spec_module_ids := ["A"] |})
      (Some (VInt 5)) {| node_id := "node-1"; rng := 0 |} = (Ok pl, w') /\
    _learner pl = ActorHandle 0.
Proof.
  apply (remote_constructor_last_match_wins local_collaborators
           (config_of "data" PolicyNone ["A"])
           [ActorHandle 0; ActorHandle 1; ActorHandle 2]
           ["node-1"; "node-2"; "node-1"] {| spec_module_ids := ["A"] |}
           (Some (VInt 5)) {| node_id := "node-1"; rng := 0 |} [2; 1] 0 []).
  - exact rev_shuffle_permutes.
  - reflexivity.
  - reflexivity.
  - reflexivity.
  - intros p [].
  - reflexivity.
Defined.

(** X9 at one handle for two hints. *)
Lemma remote_constructor_with_fewer_handles_raises_witness :
  fst (OfflinePreLearner__init__ local_collaborators (config_of "data" PolicyNone ["A"])
         (Listed [ActorHandle 0]) (Some ["node-1"; "node-2"])
         (Some {| spec_module_ids := ["A"] |}) None {| node_id := "node-1"; rng := 0 |})
  = Err IndexError.
Proof.
  apply (remote_constructor_with_fewer_handles_raises local_collaborators).
  - exact rev_shuffle_permutes.
  - cbn. lia.
Defined.

(** X10 at a handle on the worker's node. *)
Lemma remote_constructor_needs_module_spec_witness :
  exists e,
    fst (OfflinePreLearner__init__ local_collaborators
           (config_of "data" PolicyNone ["A"]) (Listed [ActorHandle 0])
           (Some ["node-1"]) None None {| node_id := "node-1"; rng := 0 |}) = Err e.
Proof.
  apply (remote_constructor_needs_module_spec local_collaborators). reflexivity.
Defined.

(** X11 at a loaded facade with a local learner; the second call asks for
    another batch size. *)
Lemma single_shard_iterator_is_built_once_witness :
  let m := build {| spec_module_ids := ["A"] |} in
  let self := with_learners
                (OfflineData__init__ local_collaborators
                   (config_of "data" PolicyNone ["A"]))
                (Some [Learner m]) None None in
  let ds := ReadDataset "read_json" (PathOf "data")
              [("override_num_blocks", VInt 2)] in
  let it := single_mode_iterator self ds (Learner m) 32 in
  let w1 := {| self_ := with_iterator self it;
               trace := [] ++ [EvMapBatches (single_mode_kwargs self (Learner m)) 2] |} in
  sample local_collaborators 32 true 1 {| self_ := self; trace := [] |} =
    (Ok (OneIterator (Some it)), w1) /\
  sample local_collaborators 64 true 1 w1 = (Ok (OneIterator (Some it)), w1).
Proof.
  intros m self ds it w1.
  apply (single_shard_iterator_is_built_once local_collaborators self [] 32 64 1 1
           ds (Learner m) []); try reflexivity; lia.
Defined.

(** X12 at the same facade: a single-batch call, then an iterator call. *)
Lemma single_batch_sample_rebuilds_iterator_witness :
  let m := build {| spec_module_ids := ["A"] |} in
  let self := with_learners
                (OfflineData__init__ local_collaborators
                   (config_of "data" PolicyNone ["A"]))
                (Some [Learner m]) None None in
  let ds := ReadDataset "read_json" (PathOf "data")
              [("override_num_blocks", VInt 2)] in
  let it := single_mode_iterator self ds (Learner m) 32 in
  let w1 := snd (sample local_collaborators 32 false 1
                   {| self_ := self; trace := [] |}) in
  batch_iterator (self_ w1) = Some it /\
  sample local_collaborators 64 true 1 w1 = (Ok (OneIterator (Some it)), w1).
Proof.
  intros m self ds it w1.
  destruct (single_batch_sample_rebuilds_iterator local_collaborators self [] 32 64 1 1
              ds (Learner m) []) as (H1 & H2); try reflexivity; try lia.
  subst w1. rewrite H1. cbn [snd]. split; [reflexivity | exact H2].
Defined.

(** X13 at a facade whose first learner is a remote handle. *)
Lemma single_mode_units_need_local_learner_witness :
  let self := with_learners
                (OfflineData__init__ local_collaborators
                   (config_of "data" PolicyNone ["A"]))
                (Some [ActorHandle 0]) (Some ["node-1"]) None in
  construct local_collaborators (single_mode_kwargs self (ActorHandle 0))
    {| node_id := "node-1"; rng := 0 |} =
  (Err TypeError, {| node_id := "node-1"; rng := 0 |}).
Proof.
  intros self.
  destruct (single_mode_units_need_local_learner local_collaborators self [] 32 false 1
              (ReadDataset "read_json" (PathOf "data") [("override_num_blocks", VInt 2)])
              (ActorHandle 0) [] {| node_id := "node-1"; rng := 0 |})
    as (_ & H).
  - reflexivity.
  - left. reflexivity.
  - reflexivity.
  - reflexivity.
  - exact H.
Defined.

(** X15 at a multi-shard call on a facade with four remote handles. *)
Lemma sample_preserves_facade_witness :
  let self := with_learners
                (OfflineData__init__ local_collaborators
                   (config_of "data" PolicyNone ["A"]))
                (Some [ActorHandle 0; ActorHandle 1]) (Some ["node-1"; "node-2"])
                (Some {| spec_module_ids := ["A"] |}) in
  self_ (snd (sample local_collaborators 32 true 2 {| self_ := self; trace := [] |}))
  = self.
Proof.
  intros self.
  destruct (sample_preserves_facade local_collaborators 32 true 2
              {| self_ := self; trace := [] |}) as (_ & _ & _ & _ & _ & _ & _ & _ & H).
  apply H. reflexivity.
Defined.

(** X17 at a facade whose first learner is local. *)
Lemma multi_shard_sample_needs_remote_first_handle_witness :
  let m := build {| spec_module_ids := ["A"] |} in
  let self := with_learners
                (OfflineData__init__ local_collaborators
                   (config_of "data" PolicyNone ["A"]))
                (Some [Learner m]) None None in
  sample local_collaborators 32 true 2 {| self_ := self; trace := [] |} =
  (Err (AttributeError "remote"), {| self_ := self; trace := [] |}).
Proof.
  intros m self.
  refine (multi_shard_sample_needs_remote_first_handle local_collaborators 32 2 self [] _).
  lia.
Defined.

(** X18 at a configuration without reader arguments of its own. *)
Lemma read_kwargs_defaults_and_overrides_witness :
  dict_get (data_read_method_kwargs
              (OfflineData__init__ local_collaborators
                 (config_of "data" PolicyNone ["A"])))
           "override_num_blocks" = Ok (VInt 2).
Proof.
  destruct (read_kwargs_defaults_and_overrides local_collaborators
              (config_of "data" PolicyNone ["A"])) as (_ & H & _).
  - constructor.
  - destruct (H eq_refl) as (blocks & Hg & H2 & _ & [-> | ->]);
      [exact Hg | cbn in H2; lia].
Defined.

(** X19 at two shards, two handles on two nodes, a worker on the second
    node. *)
Lemma multi_shard_units_carry_fetched_state_witness :
  let handles := [ActorHandle 0; ActorHandle 1] in
  let hints := ["node-1"; "node-2"] in
  let self := with_learners
                (OfflineData__init__ local_collaborators
                   (config_of "data" PolicyNone ["A"]))
                (Some handles) (Some hints) (Some {| spec_module_ids := ["A"] |}) in
  exists split w1 ds kw,
    sample local_collaborators 32 true 2 {| self_ := self; trace := [] |} =
      (Ok (Shards split), w1) /\
    split = StreamingSplit (MapBatches ds kw 2 32 true) 2 false (Some hints) /\
    forall pl wk',
      construct local_collaborators kw {| node_id := "node-2"; rng := 0 |} = (Ok pl, wk') ->
      module_state_of (_module pl) = Some (VInt 0).
Proof.
  intros handles hints self.
  destruct (multi_shard_units_carry_fetched_state local_collaborators 32 2
              {| self_ := self; trace := [] |} _ _ eq_refl)
    as (a & rest & ds & state & kw & Hh & Hd & Hs & Hsplit & Hunits).
  eexists _, _, ds, kw. split; [reflexivity |]. split; [exact Hsplit |].
  intros pl wk' H. destruct (Hunits _ _ _ H) as (Hm & _).
  rewrite Hm. cbn in Hh, Hs. inversion Hh; subst. cbn in Hs. inversion Hs. reflexivity.
Defined.
